(** * VQ-CLIP: the model-composition layer of [vq_clip/modeling_vq_clip.py]

    A shallow embedding of [VQCLIPConfig], [VQCLIPOutput] and the methods
    [forward], [save_adapter] and [from_pretrained_clip] of [VQCLIPModel],
    followed by the properties of the specification.

    Scalars and tensor entries are real numbers standing for the code's
    floating-point values.  The statements about the methods use them
    structurally: which value is passed where, and sums and quotients as
    the code writes them; none concludes about the numeric value of a
    normalized embedding.  A two-dimensional float tensor is the list of
    its rows.  Tensor operations are total (shape
    errors of the numeric layer are outside this development); the Python
    exceptions that the composition layer itself can meet are modelled by
    [Result]. *)

From Stdlib Require Import Reals Lra List String ZArith.
From stdpp Require Import gmap strings list fin_maps.
Import ListNotations.

(** ** Python exceptions and fallible computations *)

Inductive PyExc : Type :=
  | KeyError (key : string)
  | OSError (path : string).

Inductive Result (A : Type) : Type :=
  | Ok (a : A)
  | Raise (e : PyExc).
Arguments Ok {A} a.
Arguments Raise {A} e.

(** The exception monad: the first [Raise] aborts what follows.  With
    these instances stdpp's [x ← c; k] reads as sequencing of statements. *)
#[global] Instance Result_ret : MRet Result := fun A a => Ok a.
#[global] Instance Result_bind : MBind Result := fun A B k c =>
  match c with
  | Ok a => k a
  | Raise e => Raise e
  end.

(** Truthiness of an [Optional[bool]] argument: [None] counts as false. *)
Definition truthy (b : option bool) : bool :=
  match b with
  | Some true => true
  | _ => false
  end.

(** [x if x is not None else d] *)
Definition if_not_none (x : option bool) (d : bool) : bool :=
  match x with
  | Some b => b
  | None => d
  end.

(** ** Tensors *)

Definition Tensor : Type := list (list R).
Definition LongTensor : Type := list (list Z).
Definition PixelValues : Type := list (list Tensor).

Section TensorOps.
Local Open Scope R_scope.

Definition sum_squares (row : list R) : R :=
  fold_right (fun x acc => x * x + acc) 0 row.

(** [row.norm(p=2)] *)
Definition norm_p2 (row : list R) : R := sqrt (sum_squares row).

(** [x / x.norm(p=2, dim=-1, keepdim=True)]: every row is divided by its
    own norm. *)
Definition div_norm (x : Tensor) : Tensor :=
  map (fun row => map (fun v => v / norm_p2 row) row) x.

Definition dot (u v : list R) : R :=
  fold_right Rplus 0 (map (fun p => fst p * snd p) (combine u v)).

Definition ncols (x : Tensor) : nat :=
  match x with
  | [] => 0%nat
  | row :: _ => length row
  end.

Definition column (j : nat) (x : Tensor) : list R :=
  map (fun row => nth j row 0) x.

(** [x.t()] *)
Definition t (x : Tensor) : Tensor :=
  map (fun j => column j x) (seq 0 (ncols x)).

(** [torch.matmul(a, b)] *)
Definition matmul (a b : Tensor) : Tensor :=
  map (fun row => map (fun j => dot row (column j b)) (seq 0 (ncols b))) a.

(** [x * s] for a scalar [s] *)
Definition scale (x : Tensor) (s : R) : Tensor :=
  map (fun row => map (fun v => v * s) row) x.

(** All rows have [d] entries.  (A tensor is the list of its rows, so one
    without rows records no width.) *)
Definition rectangular (d : nat) (x : Tensor) : Prop :=
  Forall (fun row => length row = d) x.

Definition nonzero_row (row : list R) : Prop := Exists (fun v => v <> 0) row.
Definition unit_rows (x : Tensor) : Prop := Forall (fun row => norm_p2 row = 1) x.
End TensorOps.

(** ** The backbone and the adapters, as the forward pass consumes them *)

(** Modelled from the spec: what a tower of the backbone returns, a pooled
    feature (the item at index 1) plus optional diagnostics. *)
Record TowerOutput : Type := {
  last_hidden_state : list Tensor;
  pooler_output : Tensor;
  hidden_states : option (list (list Tensor));
  attentions : option (list (list Tensor))
}.

(** The fields of the backbone's configuration that the forward pass
    reads. *)
Module CLIPConfig.
Record t : Type := {
  output_attentions : bool;
  output_hidden_states : bool;
  use_return_dict : bool
}.
End CLIPConfig.

(** Modelled from the spec: the backbone capability, two towers, a linear
    projection per modality and the learned temperature [logit_scale].  A
    tower receives its inputs and the three flags the forward pass hands
    down ([output_attentions], [output_hidden_states], [return_dict]). *)
Record CLIPModel : Type := {
  vision_model : option PixelValues -> bool -> bool -> bool -> TowerOutput;
  text_model : option LongTensor -> option LongTensor -> option LongTensor ->
               bool -> bool -> bool -> TowerOutput;
  visual_projection : Tensor -> Tensor;
  text_projection : Tensor -> Tensor;
  logit_scale : R
}.

(** Modelled from the spec: the mapping an adapter returns, with keys [z],
    [codes], [loss] and, optionally, [perplexity]. *)
Record VQAdapterOutput : Type := {
  res_z : Tensor;
  res_codes : LongTensor;
  res_loss : R;
  res_perplexity : option R
}.

(** Modelled from the spec: the adapter capability
    [apply(embedding, return_perplexity)]. *)
Record VQAdapterModel : Type := {
  vq_forward : Tensor -> option bool -> VQAdapterOutput
}.

(** [res["perplexity"]] *)
Definition getitem_perplexity (res : VQAdapterOutput) : Result R :=
  match res_perplexity res with
  | Some p => Ok p
  | None => Raise (KeyError "perplexity")
  end.

(** ** Configuration *)

#[local] Set Warnings "-register-all".

(** Python values as they occur in configuration mappings. *)
Inductive pyval : Type :=
  | PyNone
  | PyBool (b : bool)
  | PyInt (n : Z)
  | PyStr (s : string)
  | PyList (l : list pyval)
  | PyDict (d : gmap string pyval).

(** Truth value of a Python object in a condition: [None], [False], [0],
    the empty string, list and mapping are false. *)
Definition py_bool (v : pyval) : bool :=
  match v with
  | PyNone => false
  | PyBool b => b
  | PyInt n => negb (n =? 0)%Z
  | PyStr s => negb (String.eqb s "")
  | PyList l => match l with [] => false | _ => true end
  | PyDict d => negb (size d =? 0)%nat
  end.

(** [VQCLIPConfig]: the three fragments the initialiser stores, and the
    attributes the configuration base class keeps for the remaining keyword
    arguments. *)
Record VQCLIPConfig : Type := {
  clip_config_dict : pyval;
  vision_vq_adapter_config_dict : pyval;
  text_vq_adapter_config_dict : pyval;
  base_attributes : gmap string pyval
}.

Definition model_type : string := "VQCLIP".

Section Config.
(** The defaults of [__init__], evaluated once when the class is defined:
    [CLIPConfig().to_dict()] and [VQAdapterConfig().to_dict()]. *)
Variable default_clip_config_dict : pyval.
Variable default_vq_adapter_config_dict : pyval.
(** [PretrainedConfig.__init__] on [kwargs]: the attributes the base
    class sets from the keyword arguments it is handed. *)
Variable PretrainedConfig_init : gmap string pyval -> gmap string pyval.
(** The entries the base class serialises for its own attributes. *)
Variable PretrainedConfig_to_dict : gmap string pyval -> gmap string pyval.

(** [VQCLIPConfig.__init__].  An argument is [None] here when the caller
    omits it, and then the default applies; an explicit Python [None] is
    [Some PyNone]. *)
Definition VQCLIPConfig_init
    (clip_config_dict_arg vision_vq_adapter_config_dict_arg
     text_vq_adapter_config_dict_arg : option pyval)
    (kwargs : gmap string pyval) : VQCLIPConfig :=
  {| clip_config_dict :=
       default default_clip_config_dict clip_config_dict_arg;
     vision_vq_adapter_config_dict :=
       default default_vq_adapter_config_dict vision_vq_adapter_config_dict_arg;
     text_vq_adapter_config_dict :=
       default PyNone text_vq_adapter_config_dict_arg;
     base_attributes := PretrainedConfig_init kwargs |}.

Definition fragment_keys : list string :=
  ["clip_config_dict"; "vision_vq_adapter_config_dict";
   "text_vq_adapter_config_dict"].

(** Modelled from the spec: serialisation is inherited from the
    configuration base class, whose code is not part of the sources.  It
    yields the nested mapping that has one entry per attribute of the
    object, under the attribute's name, and the class's [model_type]. *)
Definition to_dict (c : VQCLIPConfig) : gmap string pyval :=
  <["clip_config_dict" := clip_config_dict c]>
    (<["vision_vq_adapter_config_dict" := vision_vq_adapter_config_dict c]>
       (<["text_vq_adapter_config_dict" := text_vq_adapter_config_dict c]>
          (<["model_type" := PyStr model_type]>
             (PretrainedConfig_to_dict (base_attributes c))))).

(** Modelled from the spec: reconstruction is inherited from the
    configuration base class as well.  It calls the initialiser with the
    entries of the mapping as keyword arguments: an entry named after a
    parameter binds that parameter, the others travel in [kwargs]. *)
Definition from_dict (config_dict : gmap string pyval) : VQCLIPConfig :=
  VQCLIPConfig_init
    (config_dict !! "clip_config_dict")
    (config_dict !! "vision_vq_adapter_config_dict")
    (config_dict !! "text_vq_adapter_config_dict")
    (foldr delete config_dict fragment_keys).
End Config.

(** ** The model and its structured output *)

Record VQCLIPModel : Type := {
  config : VQCLIPConfig;
  clip_config : CLIPConfig.t;
  clip_model : CLIPModel;
  vision_vq_adapter : option VQAdapterModel;
  text_vq_adapter : option VQAdapterModel
}.

(** [VQCLIPOutput]: the fields inherited from the backbone's output class
    followed by the five fields the subclass adds.  Every field defaults to
    [None]. *)
Record VQCLIPOutput : Type := {
  loss : option R;
  logits_per_image : option Tensor;
  logits_per_text : option Tensor;
  text_embeds : option Tensor;
  image_embeds : option Tensor;
  text_model_output : option TowerOutput;
  vision_model_output : option TowerOutput;
  text_codes : option LongTensor;
  image_codes : option LongTensor;
  quantization_loss : option R;
  contrastive_loss : option R;
  perplexity : option R
}.

(** An item of the flat tuple. *)
Inductive TupleItem : Type :=
  | ItemScalar (x : R)
  | ItemTensor (x : Tensor)
  | ItemTower (o : TowerOutput).

Inductive ForwardReturn : Type :=
  | ReturnTuple (items : list TupleItem)
  | ReturnDict (output : VQCLIPOutput).

(** The local variables of the quantization block of [forward]. *)
Record Quantized : Type := {
  q_text_embeds : Tensor;
  q_image_embeds : Tensor;
  q_text_codes : option LongTensor;
  q_image_codes : option LongTensor;
  q_perplexity : R;
  q_vq_loss : R
}.

Section Forward.
Local Open Scope R_scope.

(** [clip_loss] of the backbone library: consumed, not reimplemented. *)
Variable clip_loss : Tensor -> R.

(** [res["perplexity"] if return_perplexity else 0.0] *)
Definition perplexity_term (res : VQAdapterOutput)
    (return_perplexity : option bool) : Result R :=
  if truthy return_perplexity then getitem_perplexity res else Ok 0.

(** [if self.text_vq_adapter: ...] *)
Definition quantize_text (self : VQCLIPModel)
    (return_perplexity : option bool) (q : Quantized) : Result Quantized :=
  match text_vq_adapter self with
  | Some adapter =>
      let res := vq_forward adapter (q_text_embeds q) return_perplexity in
      p ← perplexity_term res return_perplexity;
      Ok {| q_text_embeds := res_z res;
            q_image_embeds := q_image_embeds q;
            q_text_codes := Some (res_codes res);
            q_image_codes := q_image_codes q;
            q_perplexity := q_perplexity q + p;
            q_vq_loss := q_vq_loss q + res_loss res |}
  | None => Ok q
  end.

(** [if self.vision_vq_adapter: ...] *)
Definition quantize_image (self : VQCLIPModel)
    (return_perplexity : option bool) (q : Quantized) : Result Quantized :=
  match vision_vq_adapter self with
  | Some adapter =>
      let res := vq_forward adapter (q_image_embeds q) return_perplexity in
      p ← perplexity_term res return_perplexity;
      Ok {| q_text_embeds := q_text_embeds q;
            q_image_embeds := res_z res;
            q_text_codes := q_text_codes q;
            q_image_codes := Some (res_codes res);
            q_perplexity := q_perplexity q + p;
            q_vq_loss := q_vq_loss q + res_loss res |}
  | None => Ok q
  end.

(** [if self.vision_vq_adapter and self.text_vq_adapter: ...] *)
Definition averages (self : VQCLIPModel) (q : Quantized) : Quantized :=
  match vision_vq_adapter self, text_vq_adapter self with
  | Some _, Some _ =>
      {| q_text_embeds := q_text_embeds q;
         q_image_embeds := q_image_embeds q;
         q_text_codes := q_text_codes q;
         q_image_codes := q_image_codes q;
         q_perplexity := q_perplexity q / 2;
         q_vq_loss := q_vq_loss q / 2 |}
  | _, _ => q
  end.

(** The block under [# quantization], entered with the normalized
    embeddings. *)
Definition quantization (self : VQCLIPModel)
    (text_embeds image_embeds : Tensor)
    (return_perplexity : option bool) : Result Quantized :=
  let q := {| q_text_embeds := text_embeds;
              q_image_embeds := image_embeds;
              q_text_codes := None;
              q_image_codes := None;
              q_perplexity := 0;
              q_vq_loss := 0 |} in
  q ← quantize_text self return_perplexity q;
  q ← quantize_image self return_perplexity q;
  Ok (averages self q).

(** The two tower calls, [self.clip_model.vision_model] and
    [self.clip_model.text_model], on the resolved flags. *)
Definition vision_outputs_of (self : VQCLIPModel)
    (pixel_values : option PixelValues)
    (output_attentions output_hidden_states return_dict : bool) : TowerOutput :=
  vision_model (clip_model self) pixel_values
    output_attentions output_hidden_states return_dict.

Definition text_outputs_of (self : VQCLIPModel)
    (input_ids attention_mask position_ids : option LongTensor)
    (output_attentions output_hidden_states return_dict : bool) : TowerOutput :=
  text_model (clip_model self) input_ids attention_mask position_ids
    output_attentions output_hidden_states return_dict.

(** The local variables of [forward] when it reaches its [return]
    statements. *)
Record Locals : Type := {
  l_return_dict : bool;
  l_vision_outputs : TowerOutput;
  l_text_outputs : TowerOutput;
  l_image_embeds : Tensor;
  l_text_embeds : Tensor;
  l_image_codes : option LongTensor;
  l_text_codes : option LongTensor;
  l_perplexity : R;
  l_vq_loss : R;
  l_logits_per_text : Tensor;
  l_logits_per_image : Tensor;
  l_loss : option R;
  l_total_loss : option R
}.

(** The body of [VQCLIPModel.forward] down to the computation of
    [total_loss]. *)
Definition forward_locals (self : VQCLIPModel)
    (input_ids : option LongTensor) (pixel_values : option PixelValues)
    (attention_mask position_ids : option LongTensor)
    (return_loss output_attentions output_hidden_states return_dict
     return_perplexity : option bool) : Result Locals :=
  let output_attentions :=
    if_not_none output_attentions (CLIPConfig.output_attentions (clip_config self)) in
  let output_hidden_states :=
    if_not_none output_hidden_states (CLIPConfig.output_hidden_states (clip_config self)) in
  let return_dict :=
    if_not_none return_dict (CLIPConfig.use_return_dict (clip_config self)) in
  let vision_outputs :=
    vision_outputs_of self pixel_values
      output_attentions output_hidden_states return_dict in
  let text_outputs :=
    text_outputs_of self input_ids attention_mask position_ids
      output_attentions output_hidden_states return_dict in
  let image_embeds := pooler_output vision_outputs in
  let image_embeds := visual_projection (clip_model self) image_embeds in
  let text_embeds := pooler_output text_outputs in
  let text_embeds := text_projection (clip_model self) text_embeds in
  (* normalized features *)
  let image_embeds := div_norm image_embeds in
  let text_embeds := div_norm text_embeds in
  (* quantization *)
  q ← quantization self text_embeds image_embeds return_perplexity;
  let text_embeds := q_text_embeds q in
  let image_embeds := q_image_embeds q in
  let vq_loss := q_vq_loss q in
  (* cosine similarity as logits *)
  let logit_scale := exp (logit_scale (clip_model self)) in
  let logits_per_text := scale (matmul text_embeds (t image_embeds)) logit_scale in
  let logits_per_image := t logits_per_text in
  let loss := if truthy return_loss then Some (clip_loss logits_per_text) else None in
  let total_loss :=
    match loss with
    | Some l => Some (l + vq_loss)
    | None => None
    end in
  Ok {| l_return_dict := return_dict;
        l_vision_outputs := vision_outputs;
        l_text_outputs := text_outputs;
        l_image_embeds := image_embeds;
        l_text_embeds := text_embeds;
        l_image_codes := q_image_codes q;
        l_text_codes := q_text_codes q;
        l_perplexity := q_perplexity q;
        l_vq_loss := vq_loss;
        l_logits_per_text := logits_per_text;
        l_logits_per_image := logits_per_image;
        l_loss := loss;
        l_total_loss := total_loss |}.

(** The two [return] statements of [VQCLIPModel.forward]: the flat tuple
    when [return_dict] is false, a [VQCLIPOutput] otherwise. *)
Definition forward_return (l : Locals) : ForwardReturn :=
  if negb (l_return_dict l) then
    let output :=
      [ItemTensor (l_logits_per_image l); ItemTensor (l_logits_per_text l);
       ItemTensor (l_text_embeds l); ItemTensor (l_image_embeds l);
       ItemTower (l_text_outputs l); ItemTower (l_vision_outputs l)] in
    ReturnTuple
      match l_loss l with
      | Some loss => ItemScalar loss :: output
      | None => output
      end
  else
    ReturnDict
      {| loss := l_total_loss l;
         quantization_loss := Some (l_vq_loss l);
         contrastive_loss := l_loss l;
         logits_per_image := Some (l_logits_per_image l);
         logits_per_text := Some (l_logits_per_text l);
         text_embeds := Some (l_text_embeds l);
         text_codes := l_text_codes l;
         image_embeds := Some (l_image_embeds l);
         image_codes := l_image_codes l;
         text_model_output := None;
         vision_model_output := None;
         perplexity := None |}.

(** [VQCLIPModel.forward] *)
Definition forward (self : VQCLIPModel)
    (input_ids : option LongTensor) (pixel_values : option PixelValues)
    (attention_mask position_ids : option LongTensor)
    (return_loss output_attentions output_hidden_states return_dict
     return_perplexity : option bool) : Result ForwardReturn :=
  l ← forward_locals self input_ids pixel_values attention_mask position_ids
        return_loss output_attentions output_hidden_states return_dict
        return_perplexity;
  Ok (forward_return l).
End Forward.


(** ** Selective persistence *)

Section Persistence.
(** The values of a parameter mapping (tensors of any shape). *)
Variable StateTensor : Type.
(** [self.state_dict()]: the model's full parameter set under dotted names. *)
Variable state_dict : VQCLIPModel -> gmap string StateTensor.
(** [self.save_pretrained], called with [state_dict=sd] and with the
    positional and keyword arguments that [save_adapter] merely forwards. *)
Variable SaveArgs SaveResult : Type.
Variable save_pretrained :
  VQCLIPModel -> SaveArgs -> gmap string StateTensor -> SaveResult.

(** One turn of the loop of [save_adapter]. *)
Definition keep_unless_clip_model (k : string) (v : StateTensor)
    (sd : gmap string StateTensor) : gmap string StateTensor :=
  if String.prefix "clip_model" k then sd else <[k := v]> sd.

(** The mapping [sd] that the loop of [save_adapter] builds. *)
Definition adapter_state_dict (full : gmap string StateTensor)
    : gmap string StateTensor :=
  map_fold keep_unless_clip_model ∅ full.

(** [VQCLIPModel.save_adapter] *)
Definition save_adapter (self : VQCLIPModel) (args : SaveArgs) : SaveResult :=
  let sd := adapter_state_dict (state_dict self) in
  save_pretrained self args sd.

(** The two loaders of the library, [VQCLIPModel.from_pretrained] and
    [CLIPModel.from_pretrained]: each returns an instance or raises. *)
Variable VQCLIPModel_from_pretrained : string -> Result VQCLIPModel.
Variable CLIPModel_from_pretrained : string -> Result CLIPModel.

(** [vq_clip.clip_model = clip] *)
Definition set_clip_model (vq_clip : VQCLIPModel) (clip : CLIPModel)
    : VQCLIPModel :=
  {| config := config vq_clip;
     clip_config := clip_config vq_clip;
     clip_model := clip;
     vision_vq_adapter := vision_vq_adapter vq_clip;
     text_vq_adapter := text_vq_adapter vq_clip |}.

(** [VQCLIPModel.from_pretrained_clip] *)
Definition from_pretrained_clip (vq_clip_path clip_path : string)
    : Result VQCLIPModel :=
  vq_clip ← VQCLIPModel_from_pretrained vq_clip_path;
  clip ← CLIPModel_from_pretrained clip_path;
  let vq_clip := set_clip_model vq_clip clip in
  Ok vq_clip.
End Persistence.


(** ** Construction *)

Section Construction.
(** Constructors of the collaborating classes. *)
Variable CLIPConfig_from_dict : pyval -> CLIPConfig.t.
Variable CLIPModel_new : CLIPConfig.t -> CLIPModel.
Variable VQAdapterModel_new : pyval -> VQAdapterModel.

(** [VQCLIPModel.__init__]: an adapter is built for a modality exactly when
    that modality's fragment is true as a condition. *)
Definition VQCLIPModel_init (config : VQCLIPConfig) : VQCLIPModel :=
  let clip_config := CLIPConfig_from_dict (clip_config_dict config) in
  {| config := config;
     clip_config := clip_config;
     clip_model := CLIPModel_new clip_config;
     vision_vq_adapter :=
       if py_bool (vision_vq_adapter_config_dict config)
       then Some (VQAdapterModel_new (vision_vq_adapter_config_dict config))
       else None;
     text_vq_adapter :=
       if py_bool (text_vq_adapter_config_dict config)
       then Some (VQAdapterModel_new (text_vq_adapter_config_dict config))
       else None |}.
End Construction.

(** ** Concrete collaborators

    Small instances of the external capabilities, on which the general
    statements are exercised. *)

Section Instances.
Local Open Scope R_scope.

(** Modelled from the spec: the backbone's symmetric contrastive loss.  The
    label of row [i] is [i]; the cross entropy of the logits and that of
    their transpose are averaged. *)
Definition cross_entropy_diagonal (logits : Tensor) : R :=
  fold_right Rplus 0
    (map (fun i =>
            let row := nth i logits [] in
            ln (fold_right Rplus 0 (map exp row)) - nth i row 0)
         (seq 0 (length logits)))
  / INR (length logits).

Definition symmetric_clip_loss (similarity : Tensor) : R :=
  (cross_entropy_diagonal similarity + cross_entropy_diagonal (t similarity)) / 2.

Definition pooled_only (pooled : Tensor) : TowerOutput :=
  {| last_hidden_state := [];
     pooler_output := pooled;
     hidden_states := None;
     attentions := None |}.

(** A backbone whose text tower pools the token ids themselves, whose
    vision tower pools the first row of the first channel of every image,
    and whose projections are the identity. *)
Definition toy_clip : CLIPModel :=
  {| vision_model := fun pixel_values _ _ _ =>
       pooled_only (map (fun image => hd [] (hd [] image))
                        (default [] pixel_values));
     text_model := fun input_ids _ _ _ _ _ =>
       pooled_only (map (map IZR) (default [] input_ids));
     visual_projection := fun x => x;
     text_projection := fun x => x;
     logit_scale := 0 |}.

(** An adapter with a single code vector: every row is replaced by that
    vector and receives code 0; the loss and the perplexity are fixed, and
    the perplexity is returned only on request. *)
Definition single_code_adapter (code : list R) (l p : R) : VQAdapterModel :=
  {| vq_forward := fun x return_perplexity =>
       {| res_z := map (fun _ => code) x;
          res_codes := map (fun _ => [0%Z]) x;
          res_loss := l;
          res_perplexity := if truthy return_perplexity then Some p else None |} |}.

Definition toy_config (vision text : pyval) : VQCLIPConfig :=
  {| clip_config_dict := PyDict ∅;
     vision_vq_adapter_config_dict := vision;
     text_vq_adapter_config_dict := text;
     base_attributes := ∅ |}.

Definition fragment_of (a : option VQAdapterModel) : pyval :=
  match a with
  | Some _ => PyDict {[ "codebook_size" := PyInt 1 ]}
  | None => PyNone
  end.

Definition toy_model (vision text : option VQAdapterModel) : VQCLIPModel :=
  {| config := toy_config (fragment_of vision) (fragment_of text);
     clip_config := {| CLIPConfig.output_attentions := false;
                       CLIPConfig.output_hidden_states := false;
                       CLIPConfig.use_return_dict := true |};
     clip_model := toy_clip;
     vision_vq_adapter := vision;
     text_vq_adapter := text |}.

(** One text and one image, both projected to the row [3; 4]. *)
Definition toy_input_ids : option LongTensor := Some [[3%Z; 4%Z]].
Definition toy_pixel_values : option PixelValues := Some [[[[3; 4]]]].

(** Three adapters: code vector, loss, perplexity. *)
Definition text_adapter : VQAdapterModel := single_code_adapter [2; 0] 1 2.
Definition image_adapter : VQAdapterModel := single_code_adapter [0; 1] 3 6.
Definition exact_adapter : VQAdapterModel := single_code_adapter [2; 0] 0 5.

(** A backbone as the adapter-only checkpoint leaves it, built from the
    configuration and not from pretrained weights. *)
Definition untrained_clip : CLIPModel :=
  {| vision_model := fun _ _ _ _ => pooled_only [];
     text_model := fun _ _ _ _ _ _ => pooled_only [];
     visual_projection := fun x => x;
     text_projection := fun x => x;
     logit_scale := 1 |}.

(** Loading from a store of checkpoints: a path that is not there raises. *)
Definition load_from {A : Type} (store : gmap string A) (path : string)
    : Result A :=
  match store !! path with
  | Some a => Ok a
  | None => Raise (OSError path)
  end.

Definition adapter_checkpoints : gmap string VQCLIPModel :=
  {[ "vq-adapter" :=
       {| config := toy_config (fragment_of (Some image_adapter)) PyNone;
          clip_config := {| CLIPConfig.output_attentions := false;
                            CLIPConfig.output_hidden_states := false;
                            CLIPConfig.use_return_dict := true |};
          clip_model := untrained_clip;
          vision_vq_adapter := Some image_adapter;
          text_vq_adapter := None |} ]}.

Definition clip_checkpoints : gmap string CLIPModel :=
  {[ "clip" := toy_clip ]}.

(** A configuration base class that keeps the keyword arguments it is
    given as attributes ([model_type] belongs to the class, not to the
    instance) and serialises every attribute. *)
Definition keep_kwargs (kwargs : gmap string pyval) : gmap string pyval :=
  delete "model_type" kwargs.

Definition all_attributes (attributes : gmap string pyval) : gmap string pyval :=
  attributes.

Definition toy_kwargs : gmap string pyval :=
  {[ "return_dict" := PyBool true ]}.
End Instances.


(** ** Vocabulary of the statements *)

(** The contract of the adapters: an adapter asked for the perplexity
    returns one. *)
Definition supplies_perplexity (a : option VQAdapterModel)
    (return_perplexity : option bool) : Prop :=
  forall adapter x,
    a = Some adapter -> truthy return_perplexity = true ->
    is_Some (res_perplexity (vq_forward adapter x return_perplexity)).

Definition honours_contract (self : VQCLIPModel)
    (return_perplexity : option bool) : Prop :=
  supplies_perplexity (text_vq_adapter self) return_perplexity /\
  supplies_perplexity (vision_vq_adapter self) return_perplexity.

(** The contract of the backbone's towers: the pooled feature does not
    depend on the container ([return_dict]) in which a tower returns it. *)
Definition pooled_ignores_return_dict (clip : CLIPModel) : Prop :=
  (forall pixel_values oa ohs rd1 rd2,
     pooler_output (vision_model clip pixel_values oa ohs rd1) =
     pooler_output (vision_model clip pixel_values oa ohs rd2)) /\
  (forall input_ids attention_mask position_ids oa ohs rd1 rd2,
     pooler_output (text_model clip input_ids attention_mask position_ids oa ohs rd1) =
     pooler_output (text_model clip input_ids attention_mask position_ids oa ohs rd2)).

(** An adapter is active. *)
Definition active (a : option VQAdapterModel) : bool :=
  match a with
  | Some _ => true
  | None => false
  end.

(** What each tower returns in a call of [forward], its flags resolved
    against the backbone's configuration. *)
Definition text_tower_output (self : VQCLIPModel)
    (input_ids attention_mask position_ids : option LongTensor)
    (output_attentions output_hidden_states return_dict : option bool)
    : TowerOutput :=
  text_outputs_of self input_ids attention_mask position_ids
    (if_not_none output_attentions
       (CLIPConfig.output_attentions (clip_config self)))
    (if_not_none output_hidden_states
       (CLIPConfig.output_hidden_states (clip_config self)))
    (if_not_none return_dict
       (CLIPConfig.use_return_dict (clip_config self))).

Definition vision_tower_output (self : VQCLIPModel)
    (pixel_values : option PixelValues)
    (output_attentions output_hidden_states return_dict : option bool)
    : TowerOutput :=
  vision_outputs_of self pixel_values
    (if_not_none output_attentions
       (CLIPConfig.output_attentions (clip_config self)))
    (if_not_none output_hidden_states
       (CLIPConfig.output_hidden_states (clip_config self)))
    (if_not_none return_dict
       (CLIPConfig.use_return_dict (clip_config self))).

(** The call asks for the structured result. *)
Definition structured (self : VQCLIPModel) (return_dict : option bool) : bool :=
  if_not_none return_dict (CLIPConfig.use_return_dict (clip_config self)).

(** The projected embedding of each modality, before normalization. *)
Definition projected_text (self : VQCLIPModel)
    (input_ids attention_mask position_ids : option LongTensor)
    (output_attentions output_hidden_states return_dict : option bool) : Tensor :=
  text_projection (clip_model self)
    (pooler_output
       (text_tower_output self input_ids attention_mask position_ids
          output_attentions output_hidden_states return_dict)).

Definition projected_image (self : VQCLIPModel)
    (pixel_values : option PixelValues)
    (output_attentions output_hidden_states return_dict : option bool) : Tensor :=
  visual_projection (clip_model self)
    (pooler_output
       (vision_tower_output self pixel_values
          output_attentions output_hidden_states return_dict)).

(** The embedding of each modality after normalization, as the adapters
    receive it. *)
Definition normalized_text (self : VQCLIPModel)
    (input_ids attention_mask position_ids : option LongTensor)
    (output_attentions output_hidden_states return_dict : option bool) : Tensor :=
  div_norm (projected_text self input_ids attention_mask position_ids
              output_attentions output_hidden_states return_dict).

Definition normalized_image (self : VQCLIPModel)
    (pixel_values : option PixelValues)
    (output_attentions output_hidden_states return_dict : option bool) : Tensor :=
  div_norm (projected_image self pixel_values
              output_attentions output_hidden_states return_dict).

(** What an optional adapter makes of an embedding: its output [z] when it
    is active, the embedding itself otherwise. *)
Definition through_adapter (a : option VQAdapterModel) (x : Tensor)
    (return_perplexity : option bool) : Tensor :=
  match a with
  | Some adapter => res_z (vq_forward adapter x return_perplexity)
  | None => x
  end.

(** The normalization claim as the specification words it: every embedding
    that enters the similarity product has unit rows, adapter or not. *)
Definition cosine_inputs_unit_norm (clip_loss : Tensor -> R)
    (self : VQCLIPModel)
    (input_ids : option LongTensor) (pixel_values : option PixelValues)
    (attention_mask position_ids : option LongTensor)
    (return_loss output_attentions output_hidden_states return_dict
     return_perplexity : option bool) : Prop :=
  Forall nonzero_row
    (projected_text self input_ids attention_mask position_ids
       output_attentions output_hidden_states return_dict) ->
  Forall nonzero_row
    (projected_image self pixel_values
       output_attentions output_hidden_states return_dict) ->
  forall l,
    forward_locals clip_loss self input_ids pixel_values attention_mask
      position_ids return_loss output_attentions output_hidden_states
      return_dict return_perplexity = Ok l ->
    l_logits_per_text l =
      scale (matmul (l_text_embeds l) (t (l_image_embeds l)))
            (exp (logit_scale (clip_model self))) /\
    l_logits_per_image l = t (l_logits_per_text l) /\
    unit_rows (l_text_embeds l) /\ unit_rows (l_image_embeds l).

(** The claim that the two output modes always disagree in their loss
    position, as it is worded. *)
Definition loss_positions_differ (clip_loss : Tensor -> R)
    (self : VQCLIPModel)
    (input_ids : option LongTensor) (pixel_values : option PixelValues)
    (attention_mask position_ids : option LongTensor)
    (output_attentions output_hidden_states return_perplexity : option bool)
    : Prop :=
  forall items out,
    forward clip_loss self input_ids pixel_values attention_mask position_ids
      (Some true) output_attentions output_hidden_states (Some false)
      return_perplexity = Ok (ReturnTuple items) ->
    forward clip_loss self input_ids pixel_values attention_mask position_ids
      (Some true) output_attentions output_hidden_states (Some true)
      return_perplexity = Ok (ReturnDict out) ->
    exists c qv : R,
      head items = Some (ItemScalar c) /\
      contrastive_loss out = Some c /\
      quantization_loss out = Some qv /\
      loss out = Some (c + qv)%R /\
      loss out <> Some c.


(** ** Feature extraction and the temperature *)

Section FeatureExtraction.
(** The two feature-extraction methods call the adapter with the embedding
    alone: the adapter's own default for [return_perplexity] applies. *)
Variable adapter_default_return_perplexity : option bool.

(** [VQCLIPModel.get_text_features] *)
Definition get_text_features (self : VQCLIPModel)
    (input_ids attention_mask position_ids : option LongTensor)
    (output_attentions output_hidden_states return_dict : option bool)
    : Tensor :=
  let output_attentions :=
    if_not_none output_attentions
      (CLIPConfig.output_attentions (clip_config self)) in
  let output_hidden_states :=
    if_not_none output_hidden_states
      (CLIPConfig.output_hidden_states (clip_config self)) in
  let return_dict :=
    if_not_none return_dict (CLIPConfig.use_return_dict (clip_config self)) in
  let text_outputs :=
    text_model (clip_model self) input_ids attention_mask position_ids
      output_attentions output_hidden_states return_dict in
  let pooled_output := pooler_output text_outputs in
  let text_features := text_projection (clip_model self) pooled_output in
  let text_features := div_norm text_features in
  match text_vq_adapter self with
  | Some adapter =>
      res_z (vq_forward adapter text_features adapter_default_return_perplexity)
  | None => text_features
  end.

(** [VQCLIPModel.get_image_features] *)
Definition get_image_features (self : VQCLIPModel)
    (pixel_values : option PixelValues)
    (output_attentions output_hidden_states return_dict : option bool)
    : Tensor :=
  let output_attentions :=
    if_not_none output_attentions
      (CLIPConfig.output_attentions (clip_config self)) in
  let output_hidden_states :=
    if_not_none output_hidden_states
      (CLIPConfig.output_hidden_states (clip_config self)) in
  let return_dict :=
    if_not_none return_dict (CLIPConfig.use_return_dict (clip_config self)) in
  let vision_outputs :=
    vision_model (clip_model self) pixel_values
      output_attentions output_hidden_states return_dict in
  let pooled_output := pooler_output vision_outputs in
  let image_features := visual_projection (clip_model self) pooled_output in
  let image_features := div_norm image_features in
  match vision_vq_adapter self with
  | Some adapter =>
      res_z (vq_forward adapter image_features adapter_default_return_perplexity)
  | None => image_features
  end.
End FeatureExtraction.

(** The property [VQCLIPModel.logit_scale]. *)
Definition VQCLIPModel_logit_scale (self : VQCLIPModel) : R :=
  logit_scale (clip_model self).

(** ** Further vocabulary and instances *)


(** The entries of a parameter mapping that [save_adapter] leaves out. *)
Definition clip_model_entries {V : Type} (full : gmap string V) : gmap string V :=
  filter (fun kv => String.prefix "clip_model" kv.1 = true) full.

(** An adapter that never returns a perplexity, requested or not. *)
Definition silent_adapter (code : list R) (l : R) : VQAdapterModel :=
  {| vq_forward := fun x _ =>
       {| res_z := map (fun _ => code) x;
          res_codes := map (fun _ => [0%Z]) x;
          res_loss := l;
          res_perplexity := None |} |}.

(** Constructors for the collaborating classes, for concrete calls of
    [VQCLIPModel_init]. *)
Definition toy_clip_config_from_dict (_ : pyval) : CLIPConfig.t :=
  {| CLIPConfig.output_attentions := false;
     CLIPConfig.output_hidden_states := false;
     CLIPConfig.use_return_dict := true |}.

Definition toy_adapter_new (_ : pyval) : VQAdapterModel := text_adapter.

(** * Properties *)

(** ** Normalization, in exact arithmetic

    The facts of this section are about the expression [x / ||x||] over
    the real numbers.  The code evaluates it in floating point, where a
    normalized row has norm 1 only up to rounding, and not at all when the
    squares overflow; no statement about [forward] below depends on
    them. *)

Section NormalizationFacts.
Local Open Scope R_scope.

Lemma sum_squares_nonneg (row : list R) : 0 <= sum_squares row.
Proof.
  induction row as [|v row IH]; simpl; [lra|].
  pose proof (Rle_0_sqr v) as Hv. unfold Rsqr in Hv. lra.
Qed.

Lemma sum_squares_pos (row : list R) : nonzero_row row -> 0 < sum_squares row.
Proof.
  unfold nonzero_row. induction 1 as [v row Hv | v row _ IH]; simpl.
  - pose proof (sum_squares_nonneg row).
    assert (0 < v * v) by (destruct (Rtotal_order v 0) as [?|[?|?]]; nra).
    lra.
  - pose proof (Rle_0_sqr v) as Hv. unfold Rsqr in Hv. lra.
Qed.

Lemma sum_squares_div (row : list R) (c : R) :
  c <> 0 ->
  sum_squares (map (fun v => v / c) row) = sum_squares row / (c * c).
Proof.
  intros Hc. induction row as [|v row IH]; simpl.
  - field. exact Hc.
  - rewrite IH. field. exact Hc.
Qed.

Lemma norm_p2_pos (row : list R) : nonzero_row row -> 0 < norm_p2 row.
Proof. intros H. apply sqrt_lt_R0, sum_squares_pos, H. Qed.

Lemma norm_p2_normalized (row : list R) :
  nonzero_row row ->
  norm_p2 (map (fun v => v / norm_p2 row) row) = 1.
Proof.
  intros Hrow.
  pose proof (norm_p2_pos row Hrow) as Hpos.
  pose proof (sum_squares_nonneg row) as Hnn.
  unfold norm_p2 at 1.
  rewrite sum_squares_div by lra.
  unfold norm_p2. rewrite sqrt_sqrt by exact Hnn.
  replace (sum_squares row / sum_squares row) with 1.
  - apply sqrt_1.
  - field. pose proof (sum_squares_pos row Hrow). lra.
Qed.

Lemma div_norm_unit_rows (x : Tensor) :
  Forall nonzero_row x -> unit_rows (div_norm x).
Proof.
  unfold unit_rows, div_norm. intros H.
  apply Forall_map. eapply Forall_impl; [exact H|].
  intros row Hrow. simpl. apply norm_p2_normalized, Hrow.
Qed.
End NormalizationFacts.


(** ** Products against a transposed operand *)

Section TransposeFacts.
Local Open Scope R_scope.

Lemma map_nth_seq {A B : Type} (f : A -> B) (l : list A) (d : A) :
  map (fun i => f (nth i l d)) (seq 0 (length l)) = map f l.
Proof.
  induction l as [|a l IH]; simpl; [reflexivity|].
  f_equal. rewrite <- seq_shift, map_map. exact IH.
Qed.

Lemma nth_column (i j : nat) (b : Tensor) :
  nth j (column i b) 0 = nth i (nth j b []) 0.
Proof.
  revert j. induction b as [|row b IH]; intros j; simpl.
  - destruct j, i; reflexivity.
  - destruct j; [reflexivity|apply IH].
Qed.

(** Column [j] of the transpose is row [j]. *)
Lemma column_t (d j : nat) (b : Tensor) :
  rectangular d b -> (j < length b)%nat ->
  column j (t b) = nth j b [].
Proof.
  intros Hrect Hj. unfold t.
  assert (Hd : ncols b = d).
  { destruct b as [|row b]; [simpl in Hj; lia|].
    apply Forall_inv in Hrect. exact Hrect. }
  assert (Hrow : length (nth j b []) = d).
  { unfold rectangular in Hrect. rewrite Forall_forall in Hrect.
    apply Hrect. apply list_elem_of_In. apply nth_In. exact Hj. }
  rewrite Hd. unfold column at 1. rewrite map_map.
  erewrite map_ext; [|intros i; apply nth_column].
  rewrite <- Hrow.
  rewrite (map_nth_seq (fun v => v) (nth j b []) 0). apply map_id.
Qed.

Lemma ncols_t (d : nat) (b : Tensor) :
  (0 < d)%nat -> rectangular d b -> ncols (t b) = length b.
Proof.
  intros Hd Hrect. destruct b as [|row b]; [reflexivity|].
  apply Forall_inv in Hrect. unfold t. simpl ncols. rewrite Hrect.
  destruct d as [|d]; [lia|]. simpl. unfold column. rewrite length_map.
  reflexivity.
Qed.

(** Against a transposed operand, the product is the table of the dot
    products of the rows: entry [(i, j)] of [matmul a (t b)] is the dot
    product of row [i] of [a] and row [j] of [b]. *)
Lemma matmul_t (d : nat) (a b : Tensor) :
  (0 < d)%nat -> rectangular d b ->
  matmul a (t b) = map (fun row => map (fun row' => dot row row') b) a.
Proof.
  intros Hd Hrect. unfold matmul. rewrite (ncols_t d b Hd Hrect).
  apply map_ext. intros row.
  rewrite <- (map_nth_seq (fun row' => dot row row') b []).
  apply map_ext_in. intros j Hj. apply in_seq in Hj.
  rewrite (column_t d j b Hrect) by lia. reflexivity.
Qed.
End TransposeFacts.


(** ** Construction *)

Section ConstructionFacts.
Variable CLIPConfig_from_dict : pyval -> CLIPConfig.t.
Variable CLIPModel_new : CLIPConfig.t -> CLIPModel.
Variable VQAdapterModel_new : pyval -> VQAdapterModel.

(** A modality's adapter is active exactly when its fragment is true as a
    condition: neither [None] nor an empty mapping. *)
Lemma adapters_follow_fragments (c : VQCLIPConfig) :
  active (vision_vq_adapter
            (VQCLIPModel_init CLIPConfig_from_dict CLIPModel_new
               VQAdapterModel_new c)) =
    py_bool (vision_vq_adapter_config_dict c) /\
  active (text_vq_adapter
            (VQCLIPModel_init CLIPConfig_from_dict CLIPModel_new
               VQAdapterModel_new c)) =
    py_bool (text_vq_adapter_config_dict c).
Proof.
  unfold VQCLIPModel_init. simpl.
  destruct (py_bool (vision_vq_adapter_config_dict c));
    destruct (py_bool (text_vq_adapter_config_dict c)); split; reflexivity.
Qed.
End ConstructionFacts.


(** ** The quantization block *)

Section QuantizationFacts.
Local Open Scope R_scope.
Variable self : VQCLIPModel.
Variables text_embeds image_embeds : Tensor.
Variable return_perplexity : option bool.

Lemma perplexity_term_returns (res : VQAdapterOutput) :
  (truthy return_perplexity = true -> is_Some (res_perplexity res)) ->
  exists p, perplexity_term res return_perplexity = Ok p.
Proof.
  unfold perplexity_term, getitem_perplexity. intros H.
  destruct (truthy return_perplexity); [|eauto].
  destruct (H eq_refl) as [p ->]. eauto.
Qed.

Lemma quantization_returns :
  honours_contract self return_perplexity ->
  exists q, quantization self text_embeds image_embeds return_perplexity = Ok q.
Proof.
  intros [Htext Himage]. unfold quantization, quantize_text, quantize_image.
  destruct (text_vq_adapter self) as [ta|] eqn:Eta;
    destruct (vision_vq_adapter self) as [va|] eqn:Eva; simpl.
  - destruct (perplexity_term_returns
                (vq_forward ta text_embeds return_perplexity)) as [p ->];
      [intros; eapply Htext; eauto|]. simpl.
    destruct (perplexity_term_returns
                (vq_forward va image_embeds return_perplexity)) as [p' ->];
      [intros; eapply Himage; eauto|]. simpl. eauto.
  - destruct (perplexity_term_returns
                (vq_forward ta text_embeds return_perplexity)) as [p ->];
      [intros; eapply Htext; eauto|]. simpl. eauto.
  - destruct (perplexity_term_returns
                (vq_forward va image_embeds return_perplexity)) as [p' ->];
      [intros; eapply Himage; eauto|]. simpl. eauto.
  - eauto.
Qed.

(** Case analysis of a run of the block that returned. *)
Ltac invert_quantization H :=
  unfold quantization, quantize_text, quantize_image, averages,
    perplexity_term, getitem_perplexity in H;
  simpl in H;
  repeat (case_match; simplify_eq/=);
  simpl in *.

Lemma quantization_embeds (q : Quantized) :
  quantization self text_embeds image_embeds return_perplexity = Ok q ->
  q_text_embeds q =
    through_adapter (text_vq_adapter self) text_embeds return_perplexity /\
  q_image_embeds q =
    through_adapter (vision_vq_adapter self) image_embeds return_perplexity.
Proof. intros H. invert_quantization H; auto. Qed.

Lemma quantization_codes (q : Quantized) :
  quantization self text_embeds image_embeds return_perplexity = Ok q ->
  q_text_codes q =
    (fun adapter => res_codes (vq_forward adapter text_embeds return_perplexity))
      <$> text_vq_adapter self /\
  q_image_codes q =
    (fun adapter => res_codes (vq_forward adapter image_embeds return_perplexity))
      <$> vision_vq_adapter self.
Proof. intros H. invert_quantization H; auto. Qed.

Lemma quantization_no_adapter :
  text_vq_adapter self = None -> vision_vq_adapter self = None ->
  quantization self text_embeds image_embeds return_perplexity =
    Ok {| q_text_embeds := text_embeds;
          q_image_embeds := image_embeds;
          q_text_codes := None;
          q_image_codes := None;
          q_perplexity := 0;
          q_vq_loss := 0 |}.
Proof.
  intros Ht Hv.
  unfold quantization, quantize_text, quantize_image, averages.
  rewrite Ht, Hv. reflexivity.
Qed.

Lemma quantization_loss_both (q : Quantized) (ta va : VQAdapterModel) :
  text_vq_adapter self = Some ta -> vision_vq_adapter self = Some va ->
  quantization self text_embeds image_embeds return_perplexity = Ok q ->
  q_vq_loss q =
    (res_loss (vq_forward ta text_embeds return_perplexity) +
     res_loss (vq_forward va image_embeds return_perplexity)) / 2.
Proof. intros Ht Hv H. invert_quantization H; lra. Qed.

Lemma quantization_loss_text_only (q : Quantized) (ta : VQAdapterModel) :
  text_vq_adapter self = Some ta -> vision_vq_adapter self = None ->
  quantization self text_embeds image_embeds return_perplexity = Ok q ->
  q_vq_loss q = res_loss (vq_forward ta text_embeds return_perplexity).
Proof. intros Ht Hv H. invert_quantization H; lra. Qed.

Lemma quantization_loss_image_only (q : Quantized) (va : VQAdapterModel) :
  text_vq_adapter self = None -> vision_vq_adapter self = Some va ->
  quantization self text_embeds image_embeds return_perplexity = Ok q ->
  q_vq_loss q = res_loss (vq_forward va image_embeds return_perplexity).
Proof. intros Ht Hv H. invert_quantization H; lra. Qed.

Lemma quantization_perplexity_both (q : Quantized) (ta va : VQAdapterModel)
    (p p' : R) :
  text_vq_adapter self = Some ta -> vision_vq_adapter self = Some va ->
  truthy return_perplexity = true ->
  res_perplexity (vq_forward ta text_embeds return_perplexity) = Some p ->
  res_perplexity (vq_forward va image_embeds return_perplexity) = Some p' ->
  quantization self text_embeds image_embeds return_perplexity = Ok q ->
  q_perplexity q = (p + p') / 2.
Proof. intros Ht Hv Hrp Hp Hp' H. invert_quantization H; lra. Qed.
End QuantizationFacts.


(** ** The forward pass *)

Section ForwardPass.
Local Open Scope R_scope.
Variable clip_loss : Tensor -> R.
Variable self : VQCLIPModel.
Variable input_ids : option LongTensor.
Variable pixel_values : option PixelValues.
Variables attention_mask position_ids : option LongTensor.
Variables return_loss output_attentions output_hidden_states : option bool.
Variables return_dict return_perplexity : option bool.
(** The same call in flat-tuple mode and in structured mode. *)
Variables rd_flat rd_dict : option bool.

(** Abbreviations for the call under study, by its [return_dict]
    argument. *)
Local Abbreviation call rd :=
  (forward clip_loss self input_ids pixel_values attention_mask position_ids
     return_loss output_attentions output_hidden_states rd return_perplexity).
Local Abbreviation locals_of rd :=
  (forward_locals clip_loss self input_ids pixel_values attention_mask
     position_ids return_loss output_attentions output_hidden_states rd
     return_perplexity).
Local Abbreviation text_tower rd :=
  (text_tower_output self input_ids attention_mask position_ids
     output_attentions output_hidden_states rd).
Local Abbreviation vision_tower rd :=
  (vision_tower_output self pixel_values
     output_attentions output_hidden_states rd).
Local Abbreviation text_projected rd :=
  (projected_text self input_ids attention_mask position_ids
     output_attentions output_hidden_states rd).
Local Abbreviation image_projected rd :=
  (projected_image self pixel_values
     output_attentions output_hidden_states rd).
Local Abbreviation text_normalized rd :=
  (normalized_text self input_ids attention_mask position_ids
     output_attentions output_hidden_states rd).
Local Abbreviation image_normalized rd :=
  (normalized_image self pixel_values
     output_attentions output_hidden_states rd).

(** The normalized embeddings with which the quantization block is
    entered. *)
Lemma forward_locals_unfold (rd : option bool) (l : Locals) :
  locals_of rd = Ok l ->
  exists q,
    quantization self (div_norm (text_projected rd))
      (div_norm (image_projected rd)) return_perplexity = Ok q /\
    l_return_dict l = structured self rd /\
    l_text_embeds l = q_text_embeds q /\
    l_image_embeds l = q_image_embeds q /\
    l_text_codes l = q_text_codes q /\
    l_image_codes l = q_image_codes q /\
    l_perplexity l = q_perplexity q /\
    l_vq_loss l = q_vq_loss q /\
    l_logits_per_text l =
      scale (matmul (q_text_embeds q) (t (q_image_embeds q)))
            (exp (logit_scale (clip_model self))) /\
    l_logits_per_image l = t (l_logits_per_text l) /\
    l_loss l =
      (if truthy return_loss then Some (clip_loss (l_logits_per_text l)) else None) /\
    l_total_loss l =
      (if truthy return_loss
       then Some (clip_loss (l_logits_per_text l) + q_vq_loss q) else None) /\
    l_text_outputs l = text_tower rd /\
    l_vision_outputs l = vision_tower rd.
Proof.
  unfold forward_locals, projected_text, projected_image. cbv zeta.
  destruct (quantization _ _ _ _) as [q|e] eqn:Hq; simpl; [|discriminate].
  intros [= <-]. exists q. simpl.
  destruct (truthy return_loss); repeat split; reflexivity.
Qed.

Lemma forward_locals_returns (rd : option bool) :
  honours_contract self return_perplexity ->
  exists l, locals_of rd = Ok l.
Proof.
  intros Hc. unfold forward_locals. cbv zeta.
  edestruct quantization_returns as [q ->]; [exact Hc|].
  simpl. eauto.
Qed.

Lemma forward_returns (rd : option bool) :
  honours_contract self return_perplexity ->
  exists l,
    locals_of rd = Ok l /\
    call rd = Ok (forward_return l).
Proof.
  intros Hc. destruct (forward_locals_returns rd Hc) as [l Hl].
  exists l. split; [exact Hl|]. unfold forward. rewrite Hl. reflexivity.
Qed.

Lemma forward_inv (rd : option bool) (r : ForwardReturn) :
  call rd = Ok r ->
  exists l,
    locals_of rd = Ok l /\
    r = forward_return l.
Proof.
  unfold forward. destruct (forward_locals _ _ _ _ _ _ _ _ _ _ _) as [l|e];
    simpl; [|discriminate].
  intros [= <-]. eauto.
Qed.


(** ** The structured result *)

Lemma forward_return_dict (l : Locals) :
  l_return_dict l = true ->
  forward_return l =
    ReturnDict
      {| loss := l_total_loss l;
         quantization_loss := Some (l_vq_loss l);
         contrastive_loss := l_loss l;
         logits_per_image := Some (l_logits_per_image l);
         logits_per_text := Some (l_logits_per_text l);
         text_embeds := Some (l_text_embeds l);
         text_codes := l_text_codes l;
         image_embeds := Some (l_image_embeds l);
         image_codes := l_image_codes l;
         text_model_output := None;
         vision_model_output := None;
         perplexity := None |}.
Proof. unfold forward_return. intros ->. reflexivity. Qed.

(** The constructor call at the end of [forward] passes no [perplexity]:
    whatever was requested and computed, the field keeps its default. *)
Lemma structured_result_has_no_perplexity (out : VQCLIPOutput) :
  call return_dict = Ok (ReturnDict out) ->
  perplexity out = None.
Proof.
  intros H. apply forward_inv in H as (l & _ & Hr).
  unfold forward_return in Hr. destruct (negb (l_return_dict l)); [discriminate|].
  injection Hr as ->. reflexivity.
Qed.

(** C9. On a model with no active adapter, a forward call that asks for
    the structured result returns one whose quantization loss is exactly 0
    and whose two code fields are absent, whatever the inputs. *)
Theorem no_adapter_zero_quantization_loss_no_codes :
  text_vq_adapter self = None ->
  vision_vq_adapter self = None ->
  structured self return_dict = true ->
  exists out,
    call return_dict = Ok (ReturnDict out) /\
    quantization_loss out = Some 0 /\
    text_codes out = None /\
    image_codes out = None.
Proof.
  intros Ht Hv Hrd.
  assert (Hc : honours_contract self return_perplexity).
  { split; intros a x Ha; congruence. }
  destruct (forward_returns return_dict Hc) as (l & Hl & Hf).
  apply forward_locals_unfold in Hl
    as (q & Hq & Hld & _ & _ & Htc & Hic & _ & Hvq & _).
  rewrite quantization_no_adapter in Hq by assumption.
  injection Hq as <-. simpl in *.
  rewrite forward_return_dict in Hf by congruence.
  eexists. split; [exact Hf|]. simpl.
  rewrite Hvq, Htc, Hic. auto.
Qed.

(** C4. In the structured result the total loss is the contrastive loss
    plus the quantization loss, and it is present exactly when a loss was
    requested; without such a request it is [None], not zero. *)
Theorem total_loss_is_contrastive_plus_quantization :
  honours_contract self return_perplexity ->
  structured self return_dict = true ->
  exists out lpt qv,
    call return_dict = Ok (ReturnDict out) /\
    logits_per_text out = Some lpt /\
    quantization_loss out = Some qv /\
    contrastive_loss out =
      (if truthy return_loss then Some (clip_loss lpt) else None) /\
    loss out =
      (if truthy return_loss then Some (clip_loss lpt + qv) else None).
Proof.
  intros Hc Hrd.
  destruct (forward_returns return_dict Hc) as (l & Hl & Hf).
  apply forward_locals_unfold in Hl
    as (q & _ & Hld & _ & _ & _ & _ & _ & Hvq & _ & _ & Hloss & Htot & _).
  rewrite forward_return_dict in Hf by congruence.
  eexists. exists (l_logits_per_text l), (l_vq_loss l).
  split; [exact Hf|]. simpl. rewrite Hloss, Htot, Hvq. auto.
Qed.


(** ** Logits and normalization *)

Lemma div_norm_row (x : Tensor) (i : nat) :
  nth i (div_norm x) [] =
    map (fun v => v / norm_p2 (nth i x [])) (nth i x []).
Proof.
  unfold div_norm.
  exact (map_nth (fun row => map (fun v => v / norm_p2 row) row) x [] i).
Qed.

(** C1, as amended.  The logits are
    [text_embeds · image_embeds^T * exp(logit_scale)] and
    [logits_per_image] is the transpose of [logits_per_text].  The
    embedding of a modality that enters this product is, when the modality
    has no active adapter, the normalized projection: embedding [i] is
    projected embedding [i] divided by its own L2 norm.  With an active
    adapter it is the adapter's output [z] for that normalized projection,
    taken as returned and not normalized again. *)
Theorem logits_from_normalized_or_adapter_embeddings :
  honours_contract self return_perplexity ->
  exists l,
    locals_of return_dict = Ok l /\
    call return_dict = Ok (forward_return l) /\
    l_logits_per_text l =
      scale (matmul (l_text_embeds l) (t (l_image_embeds l)))
            (exp (logit_scale (clip_model self))) /\
    l_logits_per_image l = t (l_logits_per_text l) /\
    (text_vq_adapter self = None ->
     l_text_embeds l = div_norm (text_projected return_dict) /\
     forall i,
       nth i (l_text_embeds l) [] =
         map (fun v => v / norm_p2 (nth i (text_projected return_dict) []))
             (nth i (text_projected return_dict) [])) /\
    (vision_vq_adapter self = None ->
     l_image_embeds l = div_norm (image_projected return_dict) /\
     forall i,
       nth i (l_image_embeds l) [] =
         map (fun v => v / norm_p2 (nth i (image_projected return_dict) []))
             (nth i (image_projected return_dict) [])) /\
    (forall adapter, text_vq_adapter self = Some adapter ->
     l_text_embeds l =
       res_z (vq_forward adapter (div_norm (text_projected return_dict))
                return_perplexity)) /\
    (forall adapter, vision_vq_adapter self = Some adapter ->
     l_image_embeds l =
       res_z (vq_forward adapter (div_norm (image_projected return_dict))
                return_perplexity)).
Proof.
  intros Hc.
  destruct (forward_returns return_dict Hc) as (l & Hl & Hf).
  exists l. split; [exact Hl|]. split; [exact Hf|].
  apply forward_locals_unfold in Hl
    as (q & Hq & _ & Hte & Hie & _ & _ & _ & _ & Hlpt & Hlpi & _).
  apply quantization_embeds in Hq as [Hqt Hqi].
  split; [rewrite Hlpt, Hte, Hie; reflexivity|].
  split; [exact Hlpi|].
  rewrite Hte, Hie, Hqt, Hqi.
  split; [|split; [|split]].
  - intros ->. simpl. split; [reflexivity|]. intros i. apply div_norm_row.
  - intros ->. simpl. split; [reflexivity|]. intros i. apply div_norm_row.
  - intros adapter ->. reflexivity.
  - intros adapter ->. reflexivity.
Qed.

(** Entry [(i, j)] of [logits_per_text] is the dot product of text
    embedding [i] and image embedding [j], times [exp(logit_scale)]. *)
Lemma logits_are_scaled_dot_products (l : Locals) (d : nat) :
  locals_of return_dict = Ok l ->
  (0 < d)%nat -> rectangular d (l_image_embeds l) ->
  l_logits_per_text l =
    scale (map (fun text_row =>
                  map (fun image_row => dot text_row image_row)
                      (l_image_embeds l))
               (l_text_embeds l))
          (exp (logit_scale (clip_model self))).
Proof.
  intros Hl Hd Hrect.
  apply forward_locals_unfold in Hl
    as (q & _ & _ & Hte & Hie & _ & _ & _ & _ & Hlpt & _).
  rewrite Hlpt, <- Hte, <- Hie. rewrite (matmul_t d) by assumption.
  reflexivity.
Qed.


(** ** The two output modes *)

Lemma forward_return_tuple (l : Locals) :
  l_return_dict l = false ->
  forward_return l =
    ReturnTuple
      ((match l_loss l with Some c => [ItemScalar c] | None => [] end) ++
       [ItemTensor (l_logits_per_image l); ItemTensor (l_logits_per_text l);
        ItemTensor (l_text_embeds l); ItemTensor (l_image_embeds l);
        ItemTower (l_text_outputs l); ItemTower (l_vision_outputs l)]).
Proof.
  unfold forward_return. intros ->. simpl. destruct (l_loss l); reflexivity.
Qed.

Lemma projected_return_dict_irrelevant :
  pooled_ignores_return_dict (clip_model self) ->
  text_projected rd_flat = text_projected rd_dict /\
  image_projected rd_flat = image_projected rd_dict.
Proof.
  intros [Hv Ht]. unfold projected_text, projected_image,
    text_tower_output, vision_tower_output, text_outputs_of, vision_outputs_of.
  split; f_equal; auto.
Qed.

(** Both modes run the same computation: what they return is assembled
    from local variables that agree on embeddings, logits and losses. *)
Lemma modes_share_locals :
  honours_contract self return_perplexity ->
  pooled_ignores_return_dict (clip_model self) ->
  exists lf ld,
    call rd_flat = Ok (forward_return lf) /\
    call rd_dict = Ok (forward_return ld) /\
    l_return_dict lf = structured self rd_flat /\
    l_return_dict ld = structured self rd_dict /\
    l_text_embeds lf = l_text_embeds ld /\
    l_image_embeds lf = l_image_embeds ld /\
    l_logits_per_text lf = l_logits_per_text ld /\
    l_logits_per_image lf = l_logits_per_image ld /\
    l_loss lf = l_loss ld /\
    l_loss ld =
      (if truthy return_loss then Some (clip_loss (l_logits_per_text ld)) else None) /\
    l_total_loss ld =
      (if truthy return_loss
       then Some (clip_loss (l_logits_per_text ld) + l_vq_loss ld) else None) /\
    l_text_outputs lf = text_tower rd_flat /\
    l_vision_outputs lf = vision_tower rd_flat.
Proof.
  intros Hc Hp.
  destruct (forward_returns rd_flat Hc) as (lf & Hlf & Hff).
  destruct (forward_returns rd_dict Hc) as (ld & Hld & Hfd).
  exists lf, ld. split; [exact Hff|]. split; [exact Hfd|].
  apply forward_locals_unfold in Hlf
    as (qf & Hqf & Hrf & Htf & Hif & _ & _ & _ & Hvf & Hlptf & Hlpif & Hlossf & _
        & Htof & Hvof).
  apply forward_locals_unfold in Hld
    as (qd & Hqd & Hrd & Htd & Hid & _ & _ & _ & Hvd & Hlptd & Hlpid & Hlossd
        & Htotd & _).
  destruct (projected_return_dict_irrelevant Hp) as [Ept Epi].
  rewrite Ept, Epi in Hqf. rewrite Hqd in Hqf. injection Hqf as <-.
  assert (Elpt : l_logits_per_text lf = l_logits_per_text ld) by congruence.
  repeat split; try assumption; try congruence.
  - rewrite Hlossf, Hlossd, Elpt. reflexivity.
  - rewrite Htotd, Hvd. reflexivity.
Qed.

(** C6. In flat-tuple mode the call returns exactly
    [(loss?, logits_per_image, logits_per_text, text_embeds, image_embeds,
    text_outputs, vision_outputs)], the loss coming first if and only if
    one was requested; the same call in structured mode carries the same
    logits and the same embeddings. *)
Theorem flat_tuple_layout_and_parity :
  honours_contract self return_perplexity ->
  pooled_ignores_return_dict (clip_model self) ->
  structured self rd_flat = false ->
  structured self rd_dict = true ->
  exists lpi lpt te ie out,
    call rd_flat =
      Ok (ReturnTuple
            ((if truthy return_loss then [ItemScalar (clip_loss lpt)] else []) ++
             [ItemTensor lpi; ItemTensor lpt; ItemTensor te; ItemTensor ie;
              ItemTower (text_tower rd_flat);
              ItemTower (vision_tower rd_flat)])) /\
    call rd_dict = Ok (ReturnDict out) /\
    logits_per_image out = Some lpi /\
    logits_per_text out = Some lpt /\
    text_embeds out = Some te /\
    image_embeds out = Some ie.
Proof.
  intros Hc Hp Hflat Hdict.
  destruct (modes_share_locals Hc Hp)
    as (lf & ld & Hff & Hfd & Hrf & Hrd & Ete & Eie & Elpt & Elpi & Eloss
        & Hloss & _ & Hto & Hvo).
  rewrite forward_return_tuple in Hff by congruence.
  rewrite forward_return_dict in Hfd by congruence.
  exists (l_logits_per_image ld), (l_logits_per_text ld),
    (l_text_embeds ld), (l_image_embeds ld).
  eexists. split; [|split; [exact Hfd|simpl; auto]].
  rewrite Hff, Eloss, Hloss, Ete, Eie, Elpt, Elpi, Hto, Hvo.
  destruct (truthy return_loss); reflexivity.
Qed.
(** ** Averaging over the active adapters *)

Section Averaging.
Hypothesis contract : honours_contract self return_perplexity.
Hypothesis asks_structured : structured self return_dict = true.

(** With both adapters active the reported quantization loss is the mean
    of the two adapters' losses. *)
Lemma quantization_loss_is_mean (ta va : VQAdapterModel) :
  text_vq_adapter self = Some ta ->
  vision_vq_adapter self = Some va ->
  exists out,
    call return_dict = Ok (ReturnDict out) /\
    quantization_loss out =
      Some ((res_loss (vq_forward ta (text_normalized return_dict)
                         return_perplexity) +
             res_loss (vq_forward va (image_normalized return_dict)
                         return_perplexity)) / 2).
Proof.
  intros Ht Hv.
  destruct (forward_returns return_dict contract) as (l & Hl & Hf).
  apply forward_locals_unfold in Hl
    as (q & Hq & Hld & _ & _ & _ & _ & _ & Hvq & _).
  rewrite forward_return_dict in Hf by congruence.
  eexists. split; [exact Hf|]. simpl. rewrite Hvq.
  f_equal. eapply quantization_loss_both; eauto.
Qed.

(** With the text adapter alone the reported quantization loss is that
    adapter's loss, undivided. *)
Lemma quantization_loss_text_alone (ta : VQAdapterModel) :
  text_vq_adapter self = Some ta ->
  vision_vq_adapter self = None ->
  exists out,
    call return_dict = Ok (ReturnDict out) /\
    quantization_loss out =
      Some (res_loss (vq_forward ta (text_normalized return_dict)
                        return_perplexity)).
Proof.
  intros Ht Hv.
  destruct (forward_returns return_dict contract) as (l & Hl & Hf).
  apply forward_locals_unfold in Hl
    as (q & Hq & Hld & _ & _ & _ & _ & _ & Hvq & _).
  rewrite forward_return_dict in Hf by congruence.
  eexists. split; [exact Hf|]. simpl. rewrite Hvq.
  f_equal. eapply quantization_loss_text_only; eauto.
Qed.

(** With the vision adapter alone, likewise. *)
Lemma quantization_loss_vision_alone (va : VQAdapterModel) :
  text_vq_adapter self = None ->
  vision_vq_adapter self = Some va ->
  exists out,
    call return_dict = Ok (ReturnDict out) /\
    quantization_loss out =
      Some (res_loss (vq_forward va (image_normalized return_dict)
                        return_perplexity)).
Proof.
  intros Ht Hv.
  destruct (forward_returns return_dict contract) as (l & Hl & Hf).
  apply forward_locals_unfold in Hl
    as (q & Hq & Hld & _ & _ & _ & _ & _ & Hvq & _).
  rewrite forward_return_dict in Hf by congruence.
  eexists. split; [exact Hf|]. simpl. rewrite Hvq.
  f_equal. eapply quantization_loss_image_only; eauto.
Qed.

(** With both adapters active and the perplexity requested, the local
    variable [perplexity] is the mean of the two adapters' perplexities;
    the structured result nevertheless carries none. *)
Lemma perplexity_mean_computed_but_not_returned (ta va : VQAdapterModel)
    (p p' : R) :
  text_vq_adapter self = Some ta ->
  vision_vq_adapter self = Some va ->
  truthy return_perplexity = true ->
  res_perplexity (vq_forward ta (text_normalized return_dict)
                    return_perplexity) = Some p ->
  res_perplexity (vq_forward va (image_normalized return_dict)
                    return_perplexity) = Some p' ->
  exists l out,
    locals_of return_dict = Ok l /\
    l_perplexity l = (p + p') / 2 /\
    call return_dict = Ok (ReturnDict out) /\
    perplexity out = None.
Proof.
  intros Ht Hv Hrp Hp Hp'.
  destruct (forward_returns return_dict contract) as (l & Hl & Hf).
  exists l. eexists. split; [exact Hl|].
  apply forward_locals_unfold in Hl
    as (q & Hq & Hld & _ & _ & _ & _ & Hpq & _).
  rewrite forward_return_dict in Hf by congruence.
  split; [|split; [exact Hf|reflexivity]].
  rewrite Hpq. eapply quantization_perplexity_both; eauto.
Qed.
End Averaging.
End ForwardPass.

(** C5, as amended.  With a loss requested, the loss that opens the flat
    tuple is the contrastive loss alone, while the [loss] field of the
    structured result is the contrastive loss plus the quantization loss.
    The two positions need not hold different values: when the
    quantization loss is 0 they hold the same one. *)
Theorem flat_loss_is_contrastive_structured_loss_is_total
    (clip_loss : Tensor -> R) (self : VQCLIPModel)
    (input_ids : option LongTensor) (pixel_values : option PixelValues)
    (attention_mask position_ids : option LongTensor)
    (output_attentions output_hidden_states return_perplexity : option bool)
    (rd_flat rd_dict : option bool) :
  honours_contract self return_perplexity ->
  pooled_ignores_return_dict (clip_model self) ->
  structured self rd_flat = false ->
  structured self rd_dict = true ->
  exists (c qv : R) rest out,
    forward clip_loss self input_ids pixel_values attention_mask
      position_ids (Some true) output_attentions output_hidden_states
      rd_flat return_perplexity = Ok (ReturnTuple (ItemScalar c :: rest)) /\
    forward clip_loss self input_ids pixel_values attention_mask
      position_ids (Some true) output_attentions output_hidden_states
      rd_dict return_perplexity = Ok (ReturnDict out) /\
    contrastive_loss out = Some c /\
    quantization_loss out = Some qv /\
    loss out = Some (c + qv)%R /\
    (qv = 0%R -> loss out = Some c).
Proof.
  intros Hc Hp Hflat Hdict.
  destruct (modes_share_locals clip_loss self input_ids pixel_values
              attention_mask position_ids (Some true) output_attentions
              output_hidden_states return_perplexity rd_flat rd_dict Hc Hp)
    as (lf & ld & Hff & Hfd & Hrf & Hrd & _ & _ & _ & _ & Eloss
        & Hloss & Htot & _).
  simpl in Hloss, Htot.
  rewrite forward_return_tuple in Hff by congruence.
  rewrite forward_return_dict in Hfd by congruence.
  rewrite Eloss, Hloss in Hff. simpl in Hff.
  exists (clip_loss (l_logits_per_text ld)), (l_vq_loss ld).
  eexists. eexists. split; [exact Hff|]. split; [exact Hfd|]. simpl.
  rewrite Hloss, Htot. repeat split; try reflexivity.
  intros ->. f_equal. lra.
Qed.


(** ** Selective persistence *)

Section PersistenceFacts.
Variable StateTensor : Type.
Variable state_dict : VQCLIPModel -> gmap string StateTensor.
Variables SaveArgs SaveResult : Type.
Variable save_pretrained :
  VQCLIPModel -> SaveArgs -> gmap string StateTensor -> SaveResult.

Lemma adapter_state_dict_lookup (full : gmap string StateTensor) (k : string) :
  adapter_state_dict StateTensor full !! k =
    if String.prefix "clip_model" k then None else full !! k.
Proof.
  revert k. unfold adapter_state_dict.
  apply (map_fold_weak_ind
           (fun sd m => forall k : string,
              sd !! k = if String.prefix "clip_model" k then None else m !! k)).
  - intros k. rewrite !lookup_empty. destruct (String.prefix _ k); reflexivity.
  - intros i x m sd Hfresh IH k. unfold keep_unless_clip_model.
    destruct (decide (i = k)) as [->|Hne].
    + destruct (String.prefix "clip_model" k) eqn:Hk.
      * rewrite IH, Hk. reflexivity.
      * rewrite !lookup_insert_eq. reflexivity.
    + destruct (String.prefix "clip_model" i).
      * rewrite IH, lookup_insert_ne by exact Hne. reflexivity.
      * rewrite !lookup_insert_ne by exact Hne. apply IH.
Qed.

(** C7. The mapping that [save_adapter] hands over for writing has no
    entry whose name starts with ["clip_model"], and under every other name
    it has exactly the entry of the model's full parameter set, value
    unchanged. *)
Theorem save_adapter_keeps_exactly_the_entries_outside_clip_model
    (self : VQCLIPModel) (args : SaveArgs) :
  let written := adapter_state_dict StateTensor (state_dict self) in
  save_adapter StateTensor state_dict SaveArgs SaveResult save_pretrained
    self args = save_pretrained self args written /\
  forall k : string,
    written !! k =
      if String.prefix "clip_model" k then None else state_dict self !! k.
Proof.
  intros written. split; [reflexivity|].
  intros k. apply adapter_state_dict_lookup.
Qed.

Variable VQCLIPModel_from_pretrained : string -> Result VQCLIPModel.
Variable CLIPModel_from_pretrained : string -> Result CLIPModel.

(** C8. If either load fails, the graft-load fails with that load's error
    and returns no model; if both succeed, it returns the model restored
    from the adapter checkpoint with its backbone replaced by the one
    loaded from the backbone path, both adapters being those restored. *)
Theorem from_pretrained_clip_fails_or_grafts (vq_clip_path clip_path : string) :
  (forall e,
     VQCLIPModel_from_pretrained vq_clip_path = Raise e ->
     from_pretrained_clip VQCLIPModel_from_pretrained CLIPModel_from_pretrained
       vq_clip_path clip_path = Raise e) /\
  (forall vq_clip e,
     VQCLIPModel_from_pretrained vq_clip_path = Ok vq_clip ->
     CLIPModel_from_pretrained clip_path = Raise e ->
     from_pretrained_clip VQCLIPModel_from_pretrained CLIPModel_from_pretrained
       vq_clip_path clip_path = Raise e) /\
  (forall vq_clip clip,
     VQCLIPModel_from_pretrained vq_clip_path = Ok vq_clip ->
     CLIPModel_from_pretrained clip_path = Ok clip ->
     exists model,
       from_pretrained_clip VQCLIPModel_from_pretrained CLIPModel_from_pretrained
         vq_clip_path clip_path = Ok model /\
       clip_model model = clip /\
       vision_vq_adapter model = vision_vq_adapter vq_clip /\
       text_vq_adapter model = text_vq_adapter vq_clip /\
       config model = config vq_clip /\
       clip_config model = clip_config vq_clip).
Proof.
  unfold from_pretrained_clip. repeat split.
  - intros e ->. reflexivity.
  - intros vq_clip e -> ->. reflexivity.
  - intros vq_clip clip -> ->. eexists. split; [reflexivity|]. simpl. auto.
Qed.
End PersistenceFacts.


(** ** Configuration round trip *)

Section ConfigFacts.
Variable default_clip_config_dict : pyval.
Variable default_vq_adapter_config_dict : pyval.
Variable PretrainedConfig_init : gmap string pyval -> gmap string pyval.
Variable PretrainedConfig_to_dict : gmap string pyval -> gmap string pyval.

Lemma to_dict_fragments (c : VQCLIPConfig) :
  to_dict PretrainedConfig_to_dict c !! "clip_config_dict" =
    Some (clip_config_dict c) /\
  to_dict PretrainedConfig_to_dict c !! "vision_vq_adapter_config_dict" =
    Some (vision_vq_adapter_config_dict c) /\
  to_dict PretrainedConfig_to_dict c !! "text_vq_adapter_config_dict" =
    Some (text_vq_adapter_config_dict c).
Proof.
  unfold to_dict. repeat split.
  - apply lookup_insert_eq.
  - rewrite lookup_insert_ne by done. apply lookup_insert_eq.
  - rewrite lookup_insert_ne by done.
    rewrite lookup_insert_ne by done. apply lookup_insert_eq.
Qed.

Lemma to_dict_remaining (c : VQCLIPConfig) :
  (forall k, k ∈ fragment_keys ->
     PretrainedConfig_to_dict (base_attributes c) !! k = None) ->
  foldr delete (to_dict PretrainedConfig_to_dict c) fragment_keys =
    <["model_type" := PyStr model_type]>
      (PretrainedConfig_to_dict (base_attributes c)).
Proof.
  intros Hfree. apply map_eq. intros i. unfold to_dict. simpl.
  destruct (decide (i = "clip_config_dict")) as [->|N1].
  { rewrite lookup_delete_eq, lookup_insert_ne by done.
    symmetry. apply Hfree. unfold fragment_keys. set_solver. }
  rewrite lookup_delete_ne by congruence.
  destruct (decide (i = "vision_vq_adapter_config_dict")) as [->|N2].
  { rewrite lookup_delete_eq, lookup_insert_ne by done.
    symmetry. apply Hfree. unfold fragment_keys. set_solver. }
  rewrite lookup_delete_ne by congruence.
  destruct (decide (i = "text_vq_adapter_config_dict")) as [->|N3].
  { rewrite lookup_delete_eq, lookup_insert_ne by done.
    symmetry. apply Hfree. unfold fragment_keys. set_solver. }
  rewrite lookup_delete_ne by congruence.
  rewrite lookup_insert_ne by congruence.
  rewrite lookup_insert_ne by congruence.
  rewrite lookup_insert_ne by congruence.
  reflexivity.
Qed.

(** C10. Whatever the three fragments are, each adapter fragment being a
    mapping (present) or [None] (absent), the configuration composed from
    them is reconstructed from its serialisation with the same three
    fragments; it is reconstructed identically in every field as soon as
    the base class restores its own attributes from what it serialised
    for them. *)
Theorem config_roundtrip
    (clip_arg vision_arg text_arg : option pyval)
    (kwargs : gmap string pyval) :
  let c :=
    VQCLIPConfig_init default_clip_config_dict default_vq_adapter_config_dict
      PretrainedConfig_init clip_arg vision_arg text_arg kwargs in
  let c' :=
    from_dict default_clip_config_dict default_vq_adapter_config_dict
      PretrainedConfig_init (to_dict PretrainedConfig_to_dict c) in
  clip_config_dict c' = clip_config_dict c /\
  vision_vq_adapter_config_dict c' = vision_vq_adapter_config_dict c /\
  text_vq_adapter_config_dict c' = text_vq_adapter_config_dict c /\
  ((forall k, k ∈ fragment_keys ->
      PretrainedConfig_to_dict (base_attributes c) !! k = None) ->
   PretrainedConfig_init
     (<["model_type" := PyStr model_type]>
        (PretrainedConfig_to_dict (base_attributes c))) = base_attributes c ->
   c' = c).
Proof.
  intros c c'.
  destruct (to_dict_fragments c) as (Hc & Hv & Ht).
  assert (E1 : clip_config_dict c' = clip_config_dict c).
  { unfold c', from_dict, VQCLIPConfig_init. simpl. rewrite Hc. reflexivity. }
  assert (E2 : vision_vq_adapter_config_dict c' = vision_vq_adapter_config_dict c).
  { unfold c', from_dict, VQCLIPConfig_init. simpl. rewrite Hv. reflexivity. }
  assert (E3 : text_vq_adapter_config_dict c' = text_vq_adapter_config_dict c).
  { unfold c', from_dict, VQCLIPConfig_init. simpl. rewrite Ht. reflexivity. }
  repeat split; try assumption.
  intros Hfree Hbase.
  assert (E4 : base_attributes c' = base_attributes c).
  { change (base_attributes c') with
      (PretrainedConfig_init
         (foldr delete (to_dict PretrainedConfig_to_dict c) fragment_keys)).
    rewrite (to_dict_remaining c Hfree). exact Hbase. }
  destruct c' as [a1 a2 a3 a4], c as [b1 b2 b3 b4]. simpl in *.
  congruence.
Qed.
End ConfigFacts.


(** ** The statements on concrete calls *)

Section ConcreteCalls.
Local Open Scope R_scope.

Lemma toy_pooled_ignores_return_dict : pooled_ignores_return_dict toy_clip.
Proof. split; intros; reflexivity. Qed.

Lemma single_code_adapter_supplies (code : list R) (l p : R)
    (return_perplexity : option bool) :
  supplies_perplexity (Some (single_code_adapter code l p)) return_perplexity.
Proof.
  intros adapter x [= <-] Hrp. simpl. rewrite Hrp. eauto.
Qed.

Lemma no_adapter_supplies (return_perplexity : option bool) :
  supplies_perplexity None return_perplexity.
Proof. intros adapter x [=]. Qed.

Lemma toy_rows_nonzero : Forall nonzero_row [[3; 4]].
Proof.
  constructor; [|constructor]. unfold nonzero_row. left. lra.
Qed.

Lemma norm_p2_2_0 : norm_p2 [2; 0] = 2.
Proof.
  unfold norm_p2. simpl.
  replace (2 * 2 + (0 * 0 + 0)) with (2 * 2) by lra.
  apply sqrt_square. lra.
Qed.

(** C1, counterexample.  The text adapter replaces the unit-norm text
    embedding by its code vector [2; 0], whose norm is 2, and that is what
    enters the similarity product. *)
Lemma adapter_output_enters_logits_unnormalized :
  ~ cosine_inputs_unit_norm symmetric_clip_loss
      (toy_model None (Some text_adapter))
      toy_input_ids toy_pixel_values None None None None None None None.
Proof.
  unfold cosine_inputs_unit_norm. intros H.
  edestruct H as (_ & _ & Ut & _).
  - exact toy_rows_nonzero.
  - exact toy_rows_nonzero.
  - reflexivity.
  - simpl in Ut. apply Forall_inv in Ut.
    rewrite norm_p2_2_0 in Ut. lra.
Qed.

(** C5, counterexample.  The active text adapter returns the loss 0: the
    flat tuple opens with the contrastive loss, and the structured result
    reports the very same value as its loss. *)
Lemma zero_quantization_loss_same_loss_in_both_modes :
  ~ loss_positions_differ symmetric_clip_loss
      (toy_model None (Some exact_adapter))
      toy_input_ids toy_pixel_values None None None None None.
Proof.
  unfold loss_positions_differ. intros H.
  edestruct H as (c & qv & Hhead & Hc & _ & _ & Hne);
    [reflexivity | reflexivity |].
  apply Hne. rewrite <- Hc. simpl. f_equal. lra.
Qed.
End ConcreteCalls.


(** ** Perplexity: computed, never returned *)

Section PerplexityDropped.
Local Open Scope R_scope.

(** C2.  A call that requests the perplexity on a model whose text adapter
    is active: the block computes the perplexity 2 that the adapter
    returned, and the structured result has no perplexity. *)
Theorem requested_perplexity_absent_from_result :
  exists l out,
    forward_locals symmetric_clip_loss (toy_model None (Some text_adapter))
      toy_input_ids toy_pixel_values None None None None None
      (Some true) (Some true) = Ok l /\
    l_perplexity l = 2 /\
    forward symmetric_clip_loss (toy_model None (Some text_adapter))
      toy_input_ids toy_pixel_values None None None None None
      (Some true) (Some true) = Ok (ReturnDict out) /\
    text_codes out = Some [[0%Z]] /\
    perplexity out = None.
Proof.
  eexists. eexists. split; [reflexivity|].
  split; [simpl; lra|].
  split; [reflexivity|].
  split; reflexivity.
Qed.

(** C3.  A call that requests the perplexity on a model with both adapters
    active, whose losses are 1 and 3 and whose perplexities are 2 and 6:
    the reported quantization loss is the mean 2 and the computed
    perplexity is the mean 4, but the structured result has no
    perplexity. *)
Theorem mean_perplexity_absent_from_result :
  exists l out,
    forward_locals symmetric_clip_loss
      (toy_model (Some image_adapter) (Some text_adapter))
      toy_input_ids toy_pixel_values None None None None None
      (Some true) (Some true) = Ok l /\
    l_vq_loss l = 2 /\
    l_perplexity l = 4 /\
    forward symmetric_clip_loss
      (toy_model (Some image_adapter) (Some text_adapter))
      toy_input_ids toy_pixel_values None None None None None
      (Some true) (Some true) = Ok (ReturnDict out) /\
    quantization_loss out = Some (l_vq_loss l) /\
    perplexity out = None.
Proof.
  eexists. eexists. split; [reflexivity|].
  split; [simpl; lra|].
  split; [simpl; lra|].
  split; [reflexivity|].
  split; reflexivity.
Qed.
End PerplexityDropped.


(** ** The general statements at concrete calls *)

Section Witnesses.
Local Open Scope R_scope.

Lemma toy_model_honours_contract (code code' : list R) (l p l' p' : R)
    (return_perplexity : option bool) :
  honours_contract
    (toy_model (Some (single_code_adapter code l p))
               (Some (single_code_adapter code' l' p')))
    return_perplexity.
Proof. split; apply single_code_adapter_supplies. Defined.

Lemma toy_text_model_honours_contract (code : list R) (l p : R)
    (return_perplexity : option bool) :
  honours_contract (toy_model None (Some (single_code_adapter code l p)))
    return_perplexity.
Proof.
  split; [apply single_code_adapter_supplies | apply no_adapter_supplies].
Defined.

Lemma logits_from_normalized_or_adapter_embeddings_witness :
  exists l,
    forward symmetric_clip_loss (toy_model None (Some text_adapter))
      toy_input_ids toy_pixel_values None None None None None None None
      = Ok (forward_return l) /\
    l_logits_per_text l =
      scale (matmul (l_text_embeds l) (t (l_image_embeds l))) (exp 0) /\
    l_logits_per_image l = t (l_logits_per_text l) /\
    l_image_embeds l =
      div_norm (projected_image (toy_model None (Some text_adapter))
                  toy_pixel_values None None None) /\
    l_text_embeds l =
      res_z (vq_forward text_adapter
               (div_norm (projected_text (toy_model None (Some text_adapter))
                            toy_input_ids None None None None None))
               None).
Proof.
  destruct (logits_from_normalized_or_adapter_embeddings symmetric_clip_loss
              (toy_model None (Some text_adapter))
              toy_input_ids toy_pixel_values None None None None None None
              None (toy_text_model_honours_contract _ _ _ _))
    as (l & _ & Hf & Hlpt & Hlpi & _ & Hi & Ht & _).
  exists l. split; [exact Hf|]. split; [exact Hlpt|]. split; [exact Hlpi|].
  split; [exact (proj1 (Hi eq_refl))|exact (Ht _ eq_refl)].
Defined.

Lemma no_adapter_zero_quantization_loss_no_codes_witness :
  exists out,
    forward symmetric_clip_loss (toy_model None None)
      toy_input_ids toy_pixel_values None None (Some true) None None None
      (Some true) = Ok (ReturnDict out) /\
    quantization_loss out = Some 0 /\
    text_codes out = None /\
    image_codes out = None.
Proof.
  apply (no_adapter_zero_quantization_loss_no_codes symmetric_clip_loss
           (toy_model None None)
           toy_input_ids toy_pixel_values None None (Some true) None None None
           (Some true)); reflexivity.
Defined.

Lemma total_loss_is_contrastive_plus_quantization_witness :
  exists out lpt qv,
    forward symmetric_clip_loss
      (toy_model (Some image_adapter) (Some text_adapter))
      toy_input_ids toy_pixel_values None None (Some true) None None
      (Some true) (Some true) = Ok (ReturnDict out) /\
    logits_per_text out = Some lpt /\
    quantization_loss out = Some qv /\
    contrastive_loss out = Some (symmetric_clip_loss lpt) /\
    loss out = Some (symmetric_clip_loss lpt + qv).
Proof.
  apply (total_loss_is_contrastive_plus_quantization symmetric_clip_loss
           (toy_model (Some image_adapter) (Some text_adapter))
           toy_input_ids toy_pixel_values None None (Some true) None None
           (Some true) (Some true)).
  - apply toy_model_honours_contract.
  - reflexivity.
Defined.

Lemma flat_loss_is_contrastive_structured_loss_is_total_witness :
  exists (c qv : R) rest out,
    forward symmetric_clip_loss (toy_model None (Some text_adapter))
      toy_input_ids toy_pixel_values None None (Some true) None None
      (Some false) None = Ok (ReturnTuple (ItemScalar c :: rest)) /\
    forward symmetric_clip_loss (toy_model None (Some text_adapter))
      toy_input_ids toy_pixel_values None None (Some true) None None
      None None = Ok (ReturnDict out) /\
    contrastive_loss out = Some c /\
    quantization_loss out = Some qv /\
    loss out = Some (c + qv) /\
    (qv = 0 -> loss out = Some c).
Proof.
  apply (flat_loss_is_contrastive_structured_loss_is_total symmetric_clip_loss
           (toy_model None (Some text_adapter))
           toy_input_ids toy_pixel_values None None None None None
           (Some false) None).
  - apply toy_text_model_honours_contract.
  - exact toy_pooled_ignores_return_dict.
  - reflexivity.
  - reflexivity.
Defined.

Lemma flat_tuple_layout_and_parity_witness :
  exists lpi lpt te ie out,
    forward symmetric_clip_loss
      (toy_model (Some image_adapter) (Some text_adapter))
      toy_input_ids toy_pixel_values None None (Some true) None None
      (Some false) None =
      Ok (ReturnTuple
            ([ItemScalar (symmetric_clip_loss lpt)] ++
             [ItemTensor lpi; ItemTensor lpt; ItemTensor te; ItemTensor ie;
              ItemTower (pooled_only [[3; 4]]);
              ItemTower (pooled_only [[3; 4]])])) /\
    forward symmetric_clip_loss
      (toy_model (Some image_adapter) (Some text_adapter))
      toy_input_ids toy_pixel_values None None (Some true) None None
      (Some true) None = Ok (ReturnDict out) /\
    logits_per_image out = Some lpi /\
    logits_per_text out = Some lpt /\
    text_embeds out = Some te /\
    image_embeds out = Some ie.
Proof.
  apply (flat_tuple_layout_and_parity symmetric_clip_loss
           (toy_model (Some image_adapter) (Some text_adapter))
           toy_input_ids toy_pixel_values None None (Some true) None None None
           (Some false) (Some true)).
  - apply toy_model_honours_contract.
  - exact toy_pooled_ignores_return_dict.
  - reflexivity.
  - reflexivity.
Defined.
End Witnesses.

Section PersistenceWitnesses.

Lemma from_pretrained_clip_fails_or_grafts_witness :
  from_pretrained_clip (load_from adapter_checkpoints) (load_from clip_checkpoints)
    "missing" "clip" = Raise (OSError "missing") /\
  from_pretrained_clip (load_from adapter_checkpoints) (load_from clip_checkpoints)
    "vq-adapter" "missing" = Raise (OSError "missing") /\
  exists model,
    from_pretrained_clip (load_from adapter_checkpoints) (load_from clip_checkpoints)
      "vq-adapter" "clip" = Ok model /\
    clip_model model = toy_clip /\
    vision_vq_adapter model = Some image_adapter /\
    text_vq_adapter model = None.
Proof.
  split; [|split].
  - apply (from_pretrained_clip_fails_or_grafts
             (load_from adapter_checkpoints) (load_from clip_checkpoints)
             "missing" "clip").
    reflexivity.
  - eapply (from_pretrained_clip_fails_or_grafts
              (load_from adapter_checkpoints) (load_from clip_checkpoints)
              "vq-adapter" "missing").
    + reflexivity.
    + reflexivity.
  - edestruct (from_pretrained_clip_fails_or_grafts
                 (load_from adapter_checkpoints) (load_from clip_checkpoints)
                 "vq-adapter" "clip")
      as (_ & _ & Hgraft).
    destruct (Hgraft _ _ eq_refl eq_refl) as (model & Hm & Hc & Hv & Ht & _).
    exists model. repeat split; assumption.
Defined.

Lemma config_roundtrip_witness :
  from_dict (PyDict ∅) (PyDict ∅) keep_kwargs
    (to_dict all_attributes
       (VQCLIPConfig_init (PyDict ∅) (PyDict ∅) keep_kwargs
          (Some (PyDict ∅)) (Some PyNone)
          (Some (PyDict {[ "codebook_size" := PyInt 1 ]})) toy_kwargs)) =
  VQCLIPConfig_init (PyDict ∅) (PyDict ∅) keep_kwargs
    (Some (PyDict ∅)) (Some PyNone)
    (Some (PyDict {[ "codebook_size" := PyInt 1 ]})) toy_kwargs.
Proof.
  apply (config_roundtrip (PyDict ∅) (PyDict ∅) keep_kwargs all_attributes
           (Some (PyDict ∅)) (Some PyNone)
           (Some (PyDict {[ "codebook_size" := PyInt 1 ]})) toy_kwargs).
  - intros k Hk. unfold fragment_keys in Hk.
    repeat (apply elem_of_cons in Hk as [->|Hk]; [reflexivity|]).
    apply elem_of_nil in Hk. destruct Hk.
  - reflexivity.
Defined.
End PersistenceWitnesses.

Section PersistenceExamples.

(** The loop on a small parameter set: the backbone's entry goes, the
    adapter's entry and the top-level entry stay. *)
Example adapter_state_dict_example :
  adapter_state_dict Z
    {[ "clip_model.logit_scale" := 1%Z;
       "vision_vq_adapter.codebook" := 2%Z;
       "temperature" := 3%Z ]} =
  {[ "vision_vq_adapter.codebook" := 2%Z; "temperature" := 3%Z ]}.
Proof. vm_compute. reflexivity. Qed.

(** The default of the vision fragment applies only to an omitted
    argument: a mapping without the vision entry is reconstructed with the
    default vision fragment, one with an explicit [None] without it. *)
Example from_dict_partial_mapping :
  vision_vq_adapter_config_dict
    (from_dict (PyDict ∅) (PyDict {[ "codebook_size" := PyInt 1 ]}) keep_kwargs
       {[ "clip_config_dict" := PyDict ∅ ]}) =
    PyDict {[ "codebook_size" := PyInt 1 ]} /\
  vision_vq_adapter_config_dict
    (from_dict (PyDict ∅) (PyDict {[ "codebook_size" := PyInt 1 ]}) keep_kwargs
       {[ "clip_config_dict" := PyDict ∅;
          "vision_vq_adapter_config_dict" := PyNone ]}) =
    PyNone.
Proof. split; reflexivity. Qed.
End PersistenceExamples.


(** * Further properties *)

(** ** Entries of a transpose *)

Section TransposeEntries.


End TransposeEntries.


(** ** Feature extraction *)

Section FeatureFacts.
Local Open Scope R_scope.
Variable adapter_default_return_perplexity : option bool.
Variable clip_loss : Tensor -> R.
Variable self : VQCLIPModel.
Variable input_ids : option LongTensor.
Variable pixel_values : option PixelValues.
Variables attention_mask position_ids : option LongTensor.
Variables return_loss output_attentions output_hidden_states : option bool.
Variables return_dict return_perplexity : option bool.

Local Abbreviation call :=
  (forward clip_loss self input_ids pixel_values attention_mask position_ids
     return_loss output_attentions output_hidden_states return_dict
     return_perplexity).
Local Abbreviation locals :=
  (forward_locals clip_loss self input_ids pixel_values attention_mask
     position_ids return_loss output_attentions output_hidden_states
     return_dict return_perplexity).
Local Abbreviation text_projected :=
  (projected_text self input_ids attention_mask position_ids
     output_attentions output_hidden_states return_dict).
Local Abbreviation image_projected :=
  (projected_image self pixel_values
     output_attentions output_hidden_states return_dict).
Local Abbreviation text_normalized :=
  (normalized_text self input_ids attention_mask position_ids
     output_attentions output_hidden_states return_dict).
Local Abbreviation image_normalized :=
  (normalized_image self pixel_values
     output_attentions output_hidden_states return_dict).
Local Abbreviation text_features :=
  (get_text_features adapter_default_return_perplexity self input_ids
     attention_mask position_ids output_attentions output_hidden_states
     return_dict).
Local Abbreviation image_features :=
  (get_image_features adapter_default_return_perplexity self pixel_values
     output_attentions output_hidden_states return_dict).

Lemma get_text_features_unfold :
  text_features =
    through_adapter (text_vq_adapter self) text_normalized
      adapter_default_return_perplexity.
Proof.
  unfold get_text_features, through_adapter, normalized_text, projected_text,
    text_tower_output, text_outputs_of. reflexivity.
Qed.

Lemma get_image_features_unfold :
  image_features =
    through_adapter (vision_vq_adapter self) image_normalized
      adapter_default_return_perplexity.
Proof.
  unfold get_image_features, through_adapter, normalized_image,
    projected_image, vision_tower_output, vision_outputs_of. reflexivity.
Qed.

(** X1. [get_text_features] divides the projected text embedding by its
    L2 norm and, with an active text adapter, returns the adapter's [z]
    for that normalized embedding (the adapter's default
    [return_perplexity] applying).  [forward] hands the adapter the same
    normalized embedding, with the caller's [return_perplexity]. *)
Theorem get_text_features_adapter_input :
  honours_contract self return_perplexity ->
  (text_vq_adapter self = None ->
   text_features = div_norm text_projected) /\
  (forall adapter, text_vq_adapter self = Some adapter ->
   text_features =
     res_z (vq_forward adapter (div_norm text_projected)
              adapter_default_return_perplexity) /\
   exists l,
     locals = Ok l /\
     l_text_embeds l =
       res_z (vq_forward adapter (div_norm text_projected)
                return_perplexity)).
Proof.
  intros Hc. split.
  - intros Hnone. rewrite get_text_features_unfold, Hnone. reflexivity.
  - intros adapter Ha. split.
    + rewrite get_text_features_unfold, Ha. reflexivity.
    + destruct (forward_returns clip_loss self input_ids pixel_values
                  attention_mask position_ids return_loss output_attentions
                  output_hidden_states return_perplexity return_dict Hc)
        as (l & Hl & _).
      exists l. split; [exact Hl|].
      apply forward_locals_unfold in Hl as (q & Hq & _ & Hte & _).
      apply quantization_embeds in Hq as [Hqt _].
      rewrite Hte, Hqt, Ha. reflexivity.
Qed.

(** X2. [get_image_features] divides the projected image embedding by its
    L2 norm and, with an active vision adapter, returns the adapter's [z]
    for that normalized embedding (the adapter's default
    [return_perplexity] applying).  [forward] hands the adapter the same
    normalized embedding, with the caller's [return_perplexity]. *)
Theorem get_image_features_adapter_input :
  honours_contract self return_perplexity ->
  (vision_vq_adapter self = None ->
   image_features = div_norm image_projected) /\
  (forall adapter, vision_vq_adapter self = Some adapter ->
   image_features =
     res_z (vq_forward adapter (div_norm image_projected)
              adapter_default_return_perplexity) /\
   exists l,
     locals = Ok l /\
     l_image_embeds l =
       res_z (vq_forward adapter (div_norm image_projected)
                return_perplexity)).
Proof.
  intros Hc. split.
  - intros Hnone. rewrite get_image_features_unfold, Hnone. reflexivity.
  - intros adapter Ha. split.
    + rewrite get_image_features_unfold, Ha. reflexivity.
    + destruct (forward_returns clip_loss self input_ids pixel_values
                  attention_mask position_ids return_loss output_attentions
                  output_hidden_states return_perplexity return_dict Hc)
        as (l & Hl & _).
      exists l. split; [exact Hl|].
      apply forward_locals_unfold in Hl as (q & Hq & _ & _ & Hie & _).
      apply quantization_embeds in Hq as [_ Hqi].
      rewrite Hie, Hqi, Ha. reflexivity.
Qed.

(** X3. The text embedding that [forward] computes and returns is the one
    [get_text_features] returns on the same text inputs, when the model
    has no text adapter or when [forward] is called with the adapter's
    default [return_perplexity]; the image side has no influence. *)
Theorem forward_text_embeds_are_text_features :
  honours_contract self return_perplexity ->
  text_vq_adapter self = None \/
    return_perplexity = adapter_default_return_perplexity ->
  exists l,
    locals = Ok l /\
    call = Ok (forward_return l) /\
    l_text_embeds l = text_features.
Proof.
  intros Hc Hcase.
  destruct (forward_returns clip_loss self input_ids pixel_values
              attention_mask position_ids return_loss output_attentions
              output_hidden_states return_perplexity return_dict Hc)
    as (l & Hl & Hf).
  exists l. split; [exact Hl|]. split; [exact Hf|].
  apply forward_locals_unfold in Hl as (q & Hq & _ & Hte & _).
  apply quantization_embeds in Hq as [Hqt _].
  rewrite Hte, Hqt, get_text_features_unfold.
  destruct Hcase as [->| ->]; reflexivity.
Qed.

(** X4. Likewise the image embedding of [forward] is what
    [get_image_features] returns on the same pixel values. *)
Theorem forward_image_embeds_are_image_features :
  honours_contract self return_perplexity ->
  vision_vq_adapter self = None \/
    return_perplexity = adapter_default_return_perplexity ->
  exists l,
    locals = Ok l /\
    call = Ok (forward_return l) /\
    l_image_embeds l = image_features.
Proof.
  intros Hc Hcase.
  destruct (forward_returns clip_loss self input_ids pixel_values
              attention_mask position_ids return_loss output_attentions
              output_hidden_states return_perplexity return_dict Hc)
    as (l & Hl & Hf).
  exists l. split; [exact Hl|]. split; [exact Hf|].
  apply forward_locals_unfold in Hl as (q & Hq & _ & _ & Hie & _).
  apply quantization_embeds in Hq as [_ Hqi].
  rewrite Hie, Hqi, get_image_features_unfold.
  destruct Hcase as [->| ->]; reflexivity.
Qed.
End FeatureFacts.


(** ** Further behaviour of the forward pass *)

Section ForwardBehaviour.
Local Open Scope R_scope.
Variable clip_loss : Tensor -> R.
Variable self : VQCLIPModel.
Variable input_ids : option LongTensor.
Variable pixel_values : option PixelValues.
Variables attention_mask position_ids : option LongTensor.
Variables return_loss output_attentions output_hidden_states : option bool.
Variables return_dict return_perplexity : option bool.

Local Abbreviation call :=
  (forward clip_loss self input_ids pixel_values attention_mask position_ids
     return_loss output_attentions output_hidden_states return_dict
     return_perplexity).
Local Abbreviation locals :=
  (forward_locals clip_loss self input_ids pixel_values attention_mask
     position_ids return_loss output_attentions output_hidden_states
     return_dict return_perplexity).
Local Abbreviation text_projected :=
  (projected_text self input_ids attention_mask position_ids
     output_attentions output_hidden_states return_dict).
Local Abbreviation image_projected :=
  (projected_image self pixel_values
     output_attentions output_hidden_states return_dict).
Local Abbreviation text_normalized :=
  (normalized_text self input_ids attention_mask position_ids
     output_attentions output_hidden_states return_dict).
Local Abbreviation image_normalized :=
  (normalized_image self pixel_values
     output_attentions output_hidden_states return_dict).

Lemma forward_raises (e : PyExc) :
  quantization self text_normalized image_normalized return_perplexity
    = Raise e ->
  call = Raise e.
Proof.
  intros Hq. unfold forward, forward_locals. cbv zeta.
  unfold normalized_text, normalized_image, projected_text, projected_image,
    text_tower_output, vision_tower_output in Hq.
  rewrite Hq. reflexivity.
Qed.

(** X5. When the perplexity is requested and the result of an active
    adapter has no ["perplexity"] entry, [forward] raises
    [KeyError("perplexity")] and returns nothing, in either output mode. *)
Theorem forward_raises_key_error_on_missing_perplexity :
  truthy return_perplexity = true ->
  (exists adapter,
     text_vq_adapter self = Some adapter /\
     res_perplexity (vq_forward adapter text_normalized return_perplexity)
       = None) \/
  (exists adapter,
     vision_vq_adapter self = Some adapter /\
     res_perplexity (vq_forward adapter image_normalized return_perplexity)
       = None) ->
  call = Raise (KeyError "perplexity").
Proof.
  intros Hrp Hmissing. apply forward_raises.
  unfold quantization, quantize_text, quantize_image, perplexity_term,
    getitem_perplexity. rewrite Hrp.
  destruct Hmissing as [(a & Ha & Hnone) | (a & Ha & Hnone)].
  - rewrite Ha. simpl. rewrite Hnone. reflexivity.
  - rewrite Ha. destruct (text_vq_adapter self) as [ta|]; simpl.
    + destruct (res_perplexity (vq_forward ta _ _)); simpl;
        [rewrite Hnone|]; reflexivity.
    + rewrite Hnone. reflexivity.
Qed.

(** X6. Without a request for the perplexity, [forward] never reads the
    adapters' perplexity: it returns whatever the adapters leave out, and
    its local [perplexity] stays 0. *)
Theorem forward_without_perplexity_request :
  truthy return_perplexity = false ->
  exists l,
    locals = Ok l /\
    call = Ok (forward_return l) /\
    l_perplexity l = 0.
Proof.
  intros Hrp.
  assert (Hc : honours_contract self return_perplexity).
  { split; intros a x _ Ht; congruence. }
  destruct (forward_returns clip_loss self input_ids pixel_values
              attention_mask position_ids return_loss output_attentions
              output_hidden_states return_perplexity return_dict Hc)
    as (l & Hl & Hf).
  exists l. split; [exact Hl|]. split; [exact Hf|].
  apply forward_locals_unfold in Hl as (q & Hq & _ & _ & _ & _ & _ & Hp & _).
  rewrite Hp. clear Hp Hf.
  unfold quantization, quantize_text, quantize_image, averages,
    perplexity_term in Hq. rewrite Hrp in Hq.
  destruct (text_vq_adapter self), (vision_vq_adapter self);
    simpl in Hq; injection Hq as <-; simpl; lra.
Qed.

(** X7. In the structured result the codes of a modality are present
    exactly when that modality's adapter is active, and they are the codes
    that adapter returned for the unit-norm embedding. *)
Theorem codes_present_iff_adapter_active :
  honours_contract self return_perplexity ->
  structured self return_dict = true ->
  exists out,
    call = Ok (ReturnDict out) /\
    text_codes out =
      (fun adapter =>
         res_codes (vq_forward adapter text_normalized return_perplexity))
        <$> text_vq_adapter self /\
    image_codes out =
      (fun adapter =>
         res_codes (vq_forward adapter image_normalized return_perplexity))
        <$> vision_vq_adapter self /\
    (text_codes out = None <-> text_vq_adapter self = None) /\
    (image_codes out = None <-> vision_vq_adapter self = None).
Proof.
  intros Hc Hrd.
  destruct (forward_returns clip_loss self input_ids pixel_values
              attention_mask position_ids return_loss output_attentions
              output_hidden_states return_perplexity return_dict Hc)
    as (l & Hl & Hf).
  apply forward_locals_unfold in Hl
    as (q & Hq & Hld & _ & _ & Htc & Hic & _).
  apply quantization_codes in Hq as [Hqt Hqi].
  rewrite forward_return_dict in Hf by congruence.
  eexists. split; [exact Hf|]. simpl. rewrite Htc, Hic, Hqt, Hqi.
  split; [reflexivity|]. split; [reflexivity|].
  split.
  - destruct (text_vq_adapter self); simpl; split; congruence.
  - destruct (vision_vq_adapter self); simpl; split; congruence.
Qed.

(** X8. The structured result never carries the raw outputs of the
    towers: [text_model_output] and [vision_model_output] keep their
    default [None] (only the flat tuple holds them). *)
Theorem structured_result_has_no_tower_outputs (out : VQCLIPOutput) :
  call = Ok (ReturnDict out) ->
  text_model_output out = None /\ vision_model_output out = None.
Proof.
  intros H. apply forward_inv in H as (l & _ & Hr).
  unfold forward_return in Hr.
  destruct (negb (l_return_dict l)); [discriminate|].
  injection Hr as ->. split; reflexivity.
Qed.

(** X11. If the active adapters return non-negative losses, the reported
    quantization loss is non-negative, and a requested total loss is at
    least the contrastive loss. *)
Theorem quantization_loss_nonnegative :
  honours_contract self return_perplexity ->
  structured self return_dict = true ->
  (forall adapter x,
     text_vq_adapter self = Some adapter \/
       vision_vq_adapter self = Some adapter ->
     0 <= res_loss (vq_forward adapter x return_perplexity)) ->
  exists out qv,
    call = Ok (ReturnDict out) /\
    quantization_loss out = Some qv /\
    0 <= qv /\
    (forall c, contrastive_loss out = Some c ->
       exists total, loss out = Some total /\ c <= total).
Proof.
  intros Hc Hrd Hpos.
  destruct (forward_returns clip_loss self input_ids pixel_values
              attention_mask position_ids return_loss output_attentions
              output_hidden_states return_perplexity return_dict Hc)
    as (l & Hl & Hf).
  apply forward_locals_unfold in Hl
    as (q & Hq & Hld & _ & _ & _ & _ & _ & Hvq & _ & _ & Hloss & Htot & _).
  rewrite forward_return_dict in Hf by congruence.
  assert (Hq0 : 0 <= q_vq_loss q).
  { destruct (text_vq_adapter self) as [ta|] eqn:Et;
      destruct (vision_vq_adapter self) as [va|] eqn:Ev.
    - rewrite (quantization_loss_both _ _ _ _ q ta va Et Ev Hq).
      pose proof (Hpos ta text_normalized (or_introl eq_refl)).
      pose proof (Hpos va image_normalized (or_intror eq_refl)).
      unfold normalized_text, normalized_image in *. lra.
    - rewrite (quantization_loss_text_only _ _ _ _ q ta Et Ev Hq).
      apply (Hpos ta). left. reflexivity.
    - rewrite (quantization_loss_image_only _ _ _ _ q va Et Ev Hq).
      apply (Hpos va). right. reflexivity.
    - rewrite quantization_no_adapter in Hq by assumption.
      injection Hq as <-. simpl. lra. }
  eexists. exists (l_vq_loss l). split; [exact Hf|]. simpl.
  split; [reflexivity|]. split; [lra|].
  intros c Hcl. rewrite Hloss in Hcl. rewrite Htot.
  destruct (truthy return_loss); [|discriminate].
  injection Hcl as <-. eexists. split; [reflexivity|]. lra.
Qed.

(** X12. Without adapters the structured result's [loss] is the
    contrastive loss itself: the quantization loss 0 adds nothing, and the
    two output modes then report the same loss. *)
Theorem no_adapter_loss_is_contrastive_loss :
  text_vq_adapter self = None ->
  vision_vq_adapter self = None ->
  structured self return_dict = true ->
  exists out lpt,
    call = Ok (ReturnDict out) /\
    logits_per_text out = Some lpt /\
    contrastive_loss out =
      (if truthy return_loss then Some (clip_loss lpt) else None) /\
    loss out = contrastive_loss out.
Proof.
  intros Ht Hv Hrd.
  assert (Hc : honours_contract self return_perplexity).
  { split; intros a x Ha; congruence. }
  destruct (forward_returns clip_loss self input_ids pixel_values
              attention_mask position_ids return_loss output_attentions
              output_hidden_states return_perplexity return_dict Hc)
    as (l & Hl & Hf).
  apply forward_locals_unfold in Hl
    as (q & Hq & Hld & _ & _ & _ & _ & _ & _ & _ & _ & Hloss & Htot & _).
  rewrite quantization_no_adapter in Hq by assumption.
  injection Hq as <-. simpl in Htot.
  rewrite forward_return_dict in Hf by congruence.
  eexists. exists (l_logits_per_text l). split; [exact Hf|]. simpl.
  split; [reflexivity|]. split; [exact Hloss|].
  rewrite Htot, Hloss. destruct (truthy return_loss); [|reflexivity].
  f_equal. lra.
Qed.

End ForwardBehaviour.


(** ** Further properties of the saved parameter mapping *)

Section StateDictFacts.
Variable StateTensor : Type.
Implicit Types full : gmap string StateTensor.

Lemma prefix_clip_model_append (suffix : string) :
  String.prefix "clip_model" (String.append "clip_model" suffix) = true.
Proof. destruct suffix; reflexivity. Qed.

Lemma clip_model_entries_lookup full (k : string) :
  clip_model_entries full !! k =
    if String.prefix "clip_model" k then full !! k else None.
Proof.
  unfold clip_model_entries. apply option_eq. intros v.
  rewrite map_lookup_filter_Some. simpl.
  destruct (String.prefix "clip_model" k); split.
  - intros [H _]. exact H.
  - intros H. split; [exact H|reflexivity].
  - intros [_ H]. discriminate.
  - intros H. discriminate.
Qed.

(** X14. Filtering is idempotent and only removes: applying the loop of
    [save_adapter] to its own result changes nothing, and every entry it
    keeps is an entry of the full parameter set. *)
Theorem adapter_state_dict_idempotent_submap full :
  adapter_state_dict StateTensor (adapter_state_dict StateTensor full) =
    adapter_state_dict StateTensor full /\
  adapter_state_dict StateTensor full ⊆ full.
Proof.
  split.
  - apply map_eq. intros k. rewrite !adapter_state_dict_lookup.
    destruct (String.prefix "clip_model" k); reflexivity.
  - apply map_subseteq_spec. intros k v.
    rewrite adapter_state_dict_lookup.
    destruct (String.prefix "clip_model" k); [discriminate|auto].
Qed.

(** X15. The test is on the bare prefix ["clip_model"]: every name that
    starts with these characters is left out, whatever follows them (a dot
    or not), while every name under ["vision_vq_adapter"] or
    ["text_vq_adapter"] is written with its value. *)
Theorem adapter_state_dict_by_namespace full (suffix : string) :
  adapter_state_dict StateTensor full
    !! String.append "clip_model" suffix = None /\
  adapter_state_dict StateTensor full
    !! String.append "vision_vq_adapter" suffix =
    full !! String.append "vision_vq_adapter" suffix /\
  adapter_state_dict StateTensor full
    !! String.append "text_vq_adapter" suffix =
    full !! String.append "text_vq_adapter" suffix.
Proof.
  rewrite !adapter_state_dict_lookup.
  rewrite prefix_clip_model_append. repeat split; reflexivity.
Qed.

(** X16. [save_adapter] partitions the parameter set: the entries it
    writes and the entries under ["clip_model"] are disjoint, together they
    are the full mapping, and their sizes add up. *)
Theorem adapter_state_dict_partition full :
  adapter_state_dict StateTensor full ##ₘ clip_model_entries full /\
  adapter_state_dict StateTensor full ∪ clip_model_entries full = full /\
  size (adapter_state_dict StateTensor full) + size (clip_model_entries full)
    = size full.
Proof.
  assert (Hdisj : adapter_state_dict StateTensor full ##ₘ clip_model_entries full).
  { apply map_disjoint_spec. intros k v w.
    rewrite adapter_state_dict_lookup, clip_model_entries_lookup.
    destruct (String.prefix "clip_model" k); discriminate. }
  assert (Hunion : adapter_state_dict StateTensor full ∪ clip_model_entries full
                   = full).
  { apply map_eq. intros k. rewrite lookup_union.
    rewrite adapter_state_dict_lookup, clip_model_entries_lookup.
    destruct (String.prefix "clip_model" k); destruct (full !! k); reflexivity. }
  split; [exact Hdisj|]. split; [exact Hunion|].
  rewrite <- map_size_disj_union by exact Hdisj. rewrite Hunion. reflexivity.
Qed.
End StateDictFacts.


(** ** Further properties of the graft *)

Section GraftFacts.
Local Open Scope R_scope.
Variable VQCLIPModel_from_pretrained : string -> Result VQCLIPModel.
Variable CLIPModel_from_pretrained : string -> Result CLIPModel.

(** X17. A model is returned only if both loads succeeded; it is the
    restored model with the loaded backbone, and grafting the same backbone
    onto it again, directly or after any other backbone, gives the same
    model. *)
Theorem graft_success_inversion_and_idempotence
    (vq_clip_path clip_path : string) (model : VQCLIPModel) :
  from_pretrained_clip VQCLIPModel_from_pretrained CLIPModel_from_pretrained
    vq_clip_path clip_path = Ok model ->
  exists vq_clip clip,
    VQCLIPModel_from_pretrained vq_clip_path = Ok vq_clip /\
    CLIPModel_from_pretrained clip_path = Ok clip /\
    model = set_clip_model vq_clip clip /\
    set_clip_model model clip = model /\
    forall other, set_clip_model (set_clip_model model other) clip = model.
Proof.
  unfold from_pretrained_clip.
  destruct (VQCLIPModel_from_pretrained vq_clip_path) as [vq|e]; simpl;
    [|discriminate].
  destruct (CLIPModel_from_pretrained clip_path) as [clip|e]; simpl;
    [|discriminate].
  intros [= <-]. exists vq, clip. repeat split.
Qed.
End GraftFacts.

Section GraftedForward.
Local Open Scope R_scope.
Variable adapter_default_return_perplexity : option bool.
Variable clip_loss : Tensor -> R.

(** X18. The backbone that the adapter checkpoint was restored with leaves
    no trace: two restored models with the same adapters and the same
    backbone configuration behave alike once the same backbone is grafted
    onto them, in [forward], in feature extraction and in [logit_scale],
    which is the grafted backbone's. *)
Theorem grafted_model_ignores_placeholder_backbone
    (vq_clip vq_clip' : VQCLIPModel) (clip : CLIPModel)
    (input_ids : option LongTensor) (pixel_values : option PixelValues)
    (attention_mask position_ids : option LongTensor)
    (return_loss output_attentions output_hidden_states return_dict
     return_perplexity : option bool) :
  clip_config vq_clip = clip_config vq_clip' ->
  text_vq_adapter vq_clip = text_vq_adapter vq_clip' ->
  vision_vq_adapter vq_clip = vision_vq_adapter vq_clip' ->
  forward clip_loss (set_clip_model vq_clip clip) input_ids pixel_values
    attention_mask position_ids return_loss output_attentions
    output_hidden_states return_dict return_perplexity =
  forward clip_loss (set_clip_model vq_clip' clip) input_ids pixel_values
    attention_mask position_ids return_loss output_attentions
    output_hidden_states return_dict return_perplexity /\
  get_text_features adapter_default_return_perplexity
    (set_clip_model vq_clip clip) input_ids attention_mask position_ids
    output_attentions output_hidden_states return_dict =
  get_text_features adapter_default_return_perplexity
    (set_clip_model vq_clip' clip) input_ids attention_mask position_ids
    output_attentions output_hidden_states return_dict /\
  get_image_features adapter_default_return_perplexity
    (set_clip_model vq_clip clip) pixel_values
    output_attentions output_hidden_states return_dict =
  get_image_features adapter_default_return_perplexity
    (set_clip_model vq_clip' clip) pixel_values
    output_attentions output_hidden_states return_dict /\
  VQCLIPModel_logit_scale (set_clip_model vq_clip clip) = logit_scale clip.
Proof.
  intros Hc Ht Hv.
  unfold forward, forward_locals, quantization, quantize_text, quantize_image,
    averages, get_text_features, get_image_features, text_outputs_of,
    vision_outputs_of, VQCLIPModel_logit_scale, set_clip_model.
  simpl. rewrite Hc, Ht, Hv. repeat split; reflexivity.
Qed.
End GraftedForward.


(** ** Further properties of the construction *)

Section InitFacts.
Variable default_clip_config_dict : pyval.
Variable default_vq_adapter_config_dict : pyval.
Variable PretrainedConfig_init : gmap string pyval -> gmap string pyval.
Variable CLIPConfig_from_dict : pyval -> CLIPConfig.t.
Variable CLIPModel_new : CLIPConfig.t -> CLIPModel.
Variable VQAdapterModel_new : pyval -> VQAdapterModel.

Lemma py_bool_dict (d : gmap string pyval) :
  py_bool (PyDict d) = false <-> d = ∅.
Proof.
  simpl. rewrite negb_false_iff, Nat.eqb_eq. apply map_size_empty_iff.
Qed.

(** X19. [VQCLIPModel.__init__] builds no adapter for a fragment that is
    [None] or the empty mapping, and for a non-empty mapping it builds the
    adapter from that mapping; the two modalities are decided
    independently. *)
Theorem init_adapter_per_fragment (c : VQCLIPConfig) :
  let model :=
    VQCLIPModel_init CLIPConfig_from_dict CLIPModel_new VQAdapterModel_new c in
  (vision_vq_adapter_config_dict c = PyNone \/
   vision_vq_adapter_config_dict c = PyDict ∅ ->
   vision_vq_adapter model = None) /\
  (forall d, vision_vq_adapter_config_dict c = PyDict d -> d <> ∅ ->
   vision_vq_adapter model = Some (VQAdapterModel_new (PyDict d))) /\
  (text_vq_adapter_config_dict c = PyNone \/
   text_vq_adapter_config_dict c = PyDict ∅ ->
   text_vq_adapter model = None) /\
  (forall d, text_vq_adapter_config_dict c = PyDict d -> d <> ∅ ->
   text_vq_adapter model = Some (VQAdapterModel_new (PyDict d))).
Proof.
  intros model. unfold model, VQCLIPModel_init. simpl.
  repeat split.
  - intros [-> | ->]; reflexivity.
  - intros d -> Hd. destruct (py_bool (PyDict d)) eqn:E; [reflexivity|].
    apply py_bool_dict in E. contradiction.
  - intros [-> | ->]; reflexivity.
  - intros d -> Hd. destruct (py_bool (PyDict d)) eqn:E; [reflexivity|].
    apply py_bool_dict in E. contradiction.
Qed.

(** X20. A model built from a configuration whose adapter arguments were
    omitted never has a text adapter, and has a vision adapter exactly
    when the default vision fragment is true as a condition: the two
    defaults of [VQCLIPConfig.__init__] differ. *)
Theorem init_from_default_fragments
    (clip_arg : option pyval) (kwargs : gmap string pyval) :
  let model :=
    VQCLIPModel_init CLIPConfig_from_dict CLIPModel_new VQAdapterModel_new
      (VQCLIPConfig_init default_clip_config_dict
         default_vq_adapter_config_dict PretrainedConfig_init
         clip_arg None None kwargs) in
  text_vq_adapter model = None /\
  vision_vq_adapter model =
    (if py_bool default_vq_adapter_config_dict
     then Some (VQAdapterModel_new default_vq_adapter_config_dict)
     else None) /\
  active (vision_vq_adapter model) = py_bool default_vq_adapter_config_dict.
Proof.
  intros model. unfold model, VQCLIPModel_init, VQCLIPConfig_init. simpl.
  destruct (py_bool default_vq_adapter_config_dict); repeat split.
Qed.
End InitFacts.


(** ** The further properties at concrete calls *)

Section FurtherWitnesses.
Local Open Scope R_scope.

Lemma get_text_features_adapter_input_witness :
  get_text_features None
    (toy_model (Some image_adapter) (Some text_adapter))
    toy_input_ids None None None None None =
    res_z (vq_forward text_adapter
             (div_norm
                (projected_text
                   (toy_model (Some image_adapter) (Some text_adapter))
                   toy_input_ids None None None None None))
             None) /\
  exists l,
    forward_locals symmetric_clip_loss
      (toy_model (Some image_adapter) (Some text_adapter))
      toy_input_ids toy_pixel_values None None None None None None
      (Some true) = Ok l /\
    l_text_embeds l =
      res_z (vq_forward text_adapter
               (div_norm
                  (projected_text
                     (toy_model (Some image_adapter) (Some text_adapter))
                     toy_input_ids None None None None None))
               (Some true)).
Proof.
  apply (get_text_features_adapter_input None symmetric_clip_loss
           (toy_model (Some image_adapter) (Some text_adapter))
           toy_input_ids toy_pixel_values None None None None None None
           (Some true)).
  - apply toy_model_honours_contract.
  - reflexivity.
Defined.

Lemma get_image_features_adapter_input_witness :
  get_image_features None
    (toy_model (Some image_adapter) (Some text_adapter))
    toy_pixel_values None None None =
    res_z (vq_forward image_adapter
             (div_norm
                (projected_image
                   (toy_model (Some image_adapter) (Some text_adapter))
                   toy_pixel_values None None None))
             None) /\
  exists l,
    forward_locals symmetric_clip_loss
      (toy_model (Some image_adapter) (Some text_adapter))
      toy_input_ids toy_pixel_values None None None None None None
      (Some true) = Ok l /\
    l_image_embeds l =
      res_z (vq_forward image_adapter
               (div_norm
                  (projected_image
                     (toy_model (Some image_adapter) (Some text_adapter))
                     toy_pixel_values None None None))
               (Some true)).
Proof.
  apply (get_image_features_adapter_input None symmetric_clip_loss
           (toy_model (Some image_adapter) (Some text_adapter))
           toy_input_ids toy_pixel_values None None None None None None
           (Some true)).
  - apply toy_model_honours_contract.
  - reflexivity.
Defined.

Lemma forward_text_embeds_are_text_features_witness :
  exists l,
    forward_locals symmetric_clip_loss
      (toy_model (Some image_adapter) (Some text_adapter))
      toy_input_ids toy_pixel_values None None None None None None None
      = Ok l /\
    forward symmetric_clip_loss
      (toy_model (Some image_adapter) (Some text_adapter))
      toy_input_ids toy_pixel_values None None None None None None None
      = Ok (forward_return l) /\
    l_text_embeds l =
      get_text_features None
        (toy_model (Some image_adapter) (Some text_adapter))
        toy_input_ids None None None None None.
Proof.
  apply forward_text_embeds_are_text_features.
  - apply toy_model_honours_contract.
  - right. reflexivity.
Defined.

Lemma forward_image_embeds_are_image_features_witness :
  exists l,
    forward_locals symmetric_clip_loss
      (toy_model None (Some text_adapter))
      toy_input_ids toy_pixel_values None None None None None None
      (Some true) = Ok l /\
    forward symmetric_clip_loss
      (toy_model None (Some text_adapter))
      toy_input_ids toy_pixel_values None None None None None None
      (Some true) = Ok (forward_return l) /\
    l_image_embeds l =
      get_image_features None (toy_model None (Some text_adapter))
        toy_pixel_values None None None.
Proof.
  apply forward_image_embeds_are_image_features.
  - apply toy_text_model_honours_contract.
  - left. reflexivity.
Defined.

Lemma forward_raises_key_error_on_missing_perplexity_witness :
  forward symmetric_clip_loss
    (toy_model None (Some (silent_adapter [2; 0] 1)))
    toy_input_ids toy_pixel_values None None None None None None
    (Some true) = Raise (KeyError "perplexity").
Proof.
  apply forward_raises_key_error_on_missing_perplexity.
  - reflexivity.
  - left. eexists. split; reflexivity.
Defined.

Lemma forward_without_perplexity_request_witness :
  exists l,
    forward_locals symmetric_clip_loss
      (toy_model None (Some (silent_adapter [2; 0] 1)))
      toy_input_ids toy_pixel_values None None None None None None None
      = Ok l /\
    forward symmetric_clip_loss
      (toy_model None (Some (silent_adapter [2; 0] 1)))
      toy_input_ids toy_pixel_values None None None None None None None
      = Ok (forward_return l) /\
    l_perplexity l = 0.
Proof. apply forward_without_perplexity_request. reflexivity. Defined.

Lemma codes_present_iff_adapter_active_witness :
  exists out,
    forward symmetric_clip_loss (toy_model None (Some text_adapter))
      toy_input_ids toy_pixel_values None None None None None None None
      = Ok (ReturnDict out) /\
    text_codes out = Some [[0%Z]] /\
    image_codes out = None.
Proof.
  destruct (codes_present_iff_adapter_active symmetric_clip_loss
              (toy_model None (Some text_adapter))
              toy_input_ids toy_pixel_values None None None None None None
              None (toy_text_model_honours_contract _ _ _ _) eq_refl)
    as (out & Hf & Ht & Hi & _).
  exists out. split; [exact Hf|]. split; [exact Ht|exact Hi].
Defined.

Lemma structured_result_has_no_tower_outputs_witness :
  exists out,
    forward symmetric_clip_loss (toy_model None (Some text_adapter))
      toy_input_ids toy_pixel_values None None None None None None None
      = Ok (ReturnDict out) /\
    text_model_output out = None /\ vision_model_output out = None.
Proof.
  eexists. split; [reflexivity|].
  eapply (structured_result_has_no_tower_outputs symmetric_clip_loss
            (toy_model None (Some text_adapter))
            toy_input_ids toy_pixel_values None None None None None None None).
  reflexivity.
Defined.

Lemma quantization_loss_nonnegative_witness :
  exists out qv,
    forward symmetric_clip_loss
      (toy_model (Some image_adapter) (Some text_adapter))
      toy_input_ids toy_pixel_values None None (Some true) None None None
      None = Ok (ReturnDict out) /\
    quantization_loss out = Some qv /\
    0 <= qv /\
    (forall c, contrastive_loss out = Some c ->
       exists total, loss out = Some total /\ c <= total).
Proof.
  apply quantization_loss_nonnegative.
  - apply toy_model_honours_contract.
  - reflexivity.
  - intros adapter x [[= <-] | [= <-]]; simpl; lra.
Defined.

Lemma no_adapter_loss_is_contrastive_loss_witness :
  exists out lpt,
    forward symmetric_clip_loss (toy_model None None)
      toy_input_ids toy_pixel_values None None (Some true) None None None
      None = Ok (ReturnDict out) /\
    logits_per_text out = Some lpt /\
    contrastive_loss out = Some (symmetric_clip_loss lpt) /\
    loss out = contrastive_loss out.
Proof.
  apply (no_adapter_loss_is_contrastive_loss symmetric_clip_loss
           (toy_model None None)
           toy_input_ids toy_pixel_values None None (Some true) None None None
           None); reflexivity.
Defined.


Lemma graft_success_inversion_and_idempotence_witness :
  exists model vq_clip clip,
    from_pretrained_clip (load_from adapter_checkpoints)
      (load_from clip_checkpoints) "vq-adapter" "clip" = Ok model /\
    load_from adapter_checkpoints "vq-adapter" = Ok vq_clip /\
    load_from clip_checkpoints "clip" = Ok clip /\
    model = set_clip_model vq_clip clip /\
    set_clip_model model clip = model /\
    forall other, set_clip_model (set_clip_model model other) clip = model.
Proof.
  eassert (H : from_pretrained_clip (load_from adapter_checkpoints)
                 (load_from clip_checkpoints) "vq-adapter" "clip" = Ok _)
    by reflexivity.
  destruct (graft_success_inversion_and_idempotence _ _ _ _ _ H)
    as (vq_clip & clip & H1 & H2 & H3 & H4 & H5).
  eexists. exists vq_clip, clip. split; [exact H|]. auto.
Defined.

Lemma grafted_model_ignores_placeholder_backbone_witness :
  forward symmetric_clip_loss
    (set_clip_model (toy_model (Some image_adapter) None) toy_clip)
    toy_input_ids toy_pixel_values None None None None None None None =
  forward symmetric_clip_loss
    (set_clip_model
       (set_clip_model (toy_model (Some image_adapter) None) untrained_clip)
       toy_clip)
    toy_input_ids toy_pixel_values None None None None None None None /\
  VQCLIPModel_logit_scale
    (set_clip_model (toy_model (Some image_adapter) None) toy_clip) = 0.
Proof.
  destruct (grafted_model_ignores_placeholder_backbone None
              symmetric_clip_loss
              (toy_model (Some image_adapter) None)
              (set_clip_model (toy_model (Some image_adapter) None)
                 untrained_clip)
              toy_clip toy_input_ids toy_pixel_values None None None None
              None None None eq_refl eq_refl eq_refl)
    as (Hf & _ & _ & Hs).
  split; [exact Hf|exact Hs].
Defined.

Lemma init_adapter_per_fragment_witness :
  vision_vq_adapter
    (VQCLIPModel_init toy_clip_config_from_dict (fun _ => toy_clip)
       toy_adapter_new
       (toy_config (PyDict ∅) (PyDict {[ "codebook_size" := PyInt 1 ]})))
    = None /\
  text_vq_adapter
    (VQCLIPModel_init toy_clip_config_from_dict (fun _ => toy_clip)
       toy_adapter_new
       (toy_config (PyDict ∅) (PyDict {[ "codebook_size" := PyInt 1 ]})))
    = Some (toy_adapter_new (PyDict {[ "codebook_size" := PyInt 1 ]})).
Proof.
  destruct (init_adapter_per_fragment toy_clip_config_from_dict
              (fun _ => toy_clip) toy_adapter_new
              (toy_config (PyDict ∅)
                 (PyDict {[ "codebook_size" := PyInt 1 ]})))
    as (Hv & _ & _ & Ht).
  split.
  - apply Hv. right. reflexivity.
  - apply Ht; [reflexivity|]. apply map_non_empty_singleton.
Defined.
End FurtherWitnesses.
